(** * gohenry: addressing, context assembly and the session loop

    A shallow embedding of the parts of the gohenry Matrix bot that decide
    whether a message is addressed to the bot, rebuild the conversation
    window from the room history, filter the live event stream and recover
    from the end of a sync.

    Go strings are byte strings; they are modelled by [string] (a list of
    [ascii] bytes).  The functions of Go's [strings] package are modelled
    byte-wise, which is what Go does on ASCII text: [strings.ToLower],
    [strings.Fields] and [strings.TrimSpace] consult Unicode tables for the
    bytes above 127, and those tables are not part of the model.  A
    statement whose truth rests on what these functions compute on arbitrary
    text carries [isASCII] hypotheses; the other statements hold whatever
    the text is.

    [int64] values are modelled by [Z]; the one subtraction of the program
    is written with its wrap-around. *)

From Stdlib Require Import ZArith List String Ascii Bool Lia Sorted.
From Stdlib Require Import Permutation.
Import ListNotations.

Local Open Scope string_scope.
Local Open Scope Z_scope.

(* ================================================================== *)
(** ** Go's [strings] package, on byte strings *)

Module strings.

(** [len(s)] *)
Definition len (s : string) : Z := Z.of_nat (String.length s).

(** [s[n:]] *)
Fixpoint from (n : nat) (s : string) : string :=
  match n, s with
  | O, _ => s
  | S k, String _ cs => from k cs
  | S _, EmptyString => EmptyString
  end.

(** [s[:n]] *)
Fixpoint upto (n : nat) (s : string) : string :=
  match n, s with
  | O, _ => EmptyString
  | S k, String c cs => String c (upto k cs)
  | S _, EmptyString => EmptyString
  end.

(** [strings.HasPrefix(s, prefix)] *)
Fixpoint HasPrefix (s prefix : string) {struct prefix} : bool :=
  match prefix with
  | EmptyString => true
  | String p ps =>
      match s with
      | EmptyString => false
      | String c cs => Ascii.eqb c p && HasPrefix cs ps
      end
  end.

(** [strings.Contains(s, substr)] *)
Fixpoint Contains (s substr : string) : bool :=
  HasPrefix s substr
  || match s with
     | EmptyString => false
     | String _ cs => Contains cs substr
     end.

Fixpoint indexFrom (i : Z) (s substr : string) : Z :=
  if HasPrefix s substr then i
  else match s with
       | EmptyString => -1
       | String _ cs => indexFrom (i + 1) cs substr
       end.

(** [strings.Index(s, substr)]: the first position, or -1 *)
Definition Index (s substr : string) : Z := indexFrom 0 s substr.

(** [strings.TrimPrefix(s, prefix)] *)
Definition TrimPrefix (s prefix : string) : string :=
  if HasPrefix s prefix then from (String.length prefix) s else s.

Definition isUpper (c : ascii) : bool :=
  let n := nat_of_ascii c in (65 <=? n)%nat && (n <=? 90)%nat.

Definition lowerByte (c : ascii) : ascii :=
  if isUpper c then ascii_of_nat (nat_of_ascii c + 32) else c.

(** [strings.ToLower(s)] on ASCII text *)
Fixpoint ToLower (s : string) : string :=
  match s with
  | EmptyString => EmptyString
  | String c cs => String (lowerByte c) (ToLower cs)
  end.

(** the ASCII white space of [unicode.IsSpace]: \t \n \v \f \r and the
    blank *)
Definition isSpace (c : ascii) : bool :=
  let n := nat_of_ascii c in
  ((9 <=? n)%nat && (n <=? 13)%nat) || (n =? 32)%nat.

Fixpoint fieldsFrom (s cur : string) : list string :=
  match s with
  | EmptyString =>
      match cur with
      | EmptyString => []
      | _ => [cur]
      end
  | String c cs =>
      if isSpace c then
        match cur with
        | EmptyString => fieldsFrom cs EmptyString
        | _ => cur :: fieldsFrom cs EmptyString
        end
      else fieldsFrom cs (cur ++ String c EmptyString)
  end.

(** [strings.Fields(s)]: the maximal runs of non-space bytes *)
Definition Fields (s : string) : list string := fieldsFrom s EmptyString.

Fixpoint memByte (c : ascii) (cutset : string) : bool :=
  match cutset with
  | EmptyString => false
  | String d ds => Ascii.eqb c d || memByte c ds
  end.

Fixpoint TrimLeftFunc (f : ascii -> bool) (s : string) : string :=
  match s with
  | EmptyString => EmptyString
  | String c cs => if f c then TrimLeftFunc f cs else s
  end.

Fixpoint TrimRightFunc (f : ascii -> bool) (s : string) : string :=
  match s with
  | EmptyString => EmptyString
  | String c cs =>
      match TrimRightFunc f cs with
      | EmptyString => if f c then EmptyString else String c EmptyString
      | r => String c r
      end
  end.

Definition TrimFunc (f : ascii -> bool) (s : string) : string :=
  TrimRightFunc f (TrimLeftFunc f s).

(** [strings.Trim(s, cutset)] *)
Definition Trim (s cutset : string) : string :=
  TrimFunc (fun c => memByte c cutset) s.

(** [strings.TrimSpace(s)] *)
Definition TrimSpace (s : string) : string := TrimFunc isSpace s.

(** Replacement of the non-overlapping occurrences of a non-empty [old],
    from the left: [skip] counts the bytes of an occurrence that are still
    to be dropped. *)
Fixpoint replaceFrom (s old new : string) (skip : nat) : string :=
  match s with
  | EmptyString => EmptyString
  | String c cs =>
      match skip with
      | S k => replaceFrom cs old new k
      | O =>
          if HasPrefix s old
          then new ++ replaceFrom cs old new (Nat.pred (String.length old))
          else String c (replaceFrom cs old new O)
      end
  end.

(** With an empty [old], Go inserts [new] before every byte and at the
    end. *)
Fixpoint intersperse (s new : string) : string :=
  match s with
  | EmptyString => new
  | String c cs => new ++ String c (intersperse cs new)
  end.

(** [strings.ReplaceAll(s, old, new)] *)
Definition ReplaceAll (s old new : string) : string :=
  match old with
  | EmptyString => intersperse s new
  | _ => replaceFrom s old new O
  end.

Fixpoint splitFrom (s sep cur : string) (skip : nat) : list string :=
  match s with
  | EmptyString => [cur]
  | String c cs =>
      match skip with
      | S k => splitFrom cs sep cur k
      | O =>
          if HasPrefix s sep
          then cur :: splitFrom cs sep EmptyString
                        (Nat.pred (String.length sep))
          else splitFrom cs sep (cur ++ String c EmptyString) O
      end
  end.

Fixpoint explode (s : string) : list string :=
  match s with
  | EmptyString => []
  | String c cs => String c EmptyString :: explode cs
  end.

(** [strings.Split(s, sep)] *)
Definition Split (s sep : string) : list string :=
  match sep with
  | EmptyString => explode s
  | _ => splitFrom s sep EmptyString O
  end.

(** every byte is below 128 *)
Fixpoint isASCII (s : string) : bool :=
  match s with
  | EmptyString => true
  | String c cs => (nat_of_ascii c <? 128)%nat && isASCII cs
  end.

(** the number of occurrences of the byte [c] in [s] *)
Fixpoint countByte (c : ascii) (s : string) : nat :=
  match s with
  | EmptyString => O
  | String d ds => (if Ascii.eqb d c then 1 else 0) + countByte c ds
  end.

End strings.

(* ================================================================== *)
(** ** 64-bit signed integers *)

Module Int64.

Definition modulus : Z := 2 ^ 64.
Definition min_signed : Z := - 2 ^ 63.
Definition max_signed : Z := 2 ^ 63 - 1.

Definition inRange (z : Z) : Prop := min_signed <= z <= max_signed.

(** the value of an [int64] after an arithmetic operation *)
Definition wrap (z : Z) : Z := (z + 2 ^ 63) mod modulus - 2 ^ 63.

Definition sub (a b : Z) : Z := wrap (a - b).

End Int64.

(* ================================================================== *)
(** ** Package [domain] *)

Module domain.

(** Modelled from the spec: the package [domain] is not among the sources;
    only its uses are.  [RoomType] is the spec's enum {direct, group}
    (constants [DirectRoom] and [GroupRoom] in the code), [Role] is
    {user, assistant} ([RoleUser], [RoleAssistant]). *)
Inductive RoomType := DirectRoom | GroupRoom.

Inductive Role := RoleUser | RoleAssistant.

(** Modelled from the spec: [domain.Message], with the fields that
    [Service.GetRoomContext] fills in. *)
Record Message := {
  ID : string;
  RoomID : string;
  SenderID : string;
  Content : string;
  Timestamp : Z;
  IsFromBot : bool
}.

(** Modelled from the spec: [domain.ConversationMessage], with the fields
    that [getConversationContext] fills in. *)
Record ConversationMessage := {
  cmRole : Role;
  cmContent : string;
  cmTimestamp : Z;
  cmSenderID : string
}.

Definition RoomType_eqb (a b : RoomType) : bool :=
  match a, b with
  | DirectRoom, DirectRoom | GroupRoom, GroupRoom => true
  | _, _ => false
  end.

End domain.

(** Go's [error] values, by their text; [nil] is [None]. *)
Definition error := string.

(* ================================================================== *)
(** ** Package [matrix]: [client.go] *)

Module matrix.
Import domain.

(** The fields of [Client] that the modelled functions read or write
    (the [config] pointer is flattened to the one field used). *)
Record Client := {
  userID : string;
  allowedDomain : string;
  SyncTokenFile : string;
  syncToken : string;
  lastProcessedTime : Z;
  startupTime : Z
}.

Definition setSyncToken (c : Client) (t : string) : Client :=
  {| userID := userID c; allowedDomain := allowedDomain c;
     SyncTokenFile := SyncTokenFile c; syncToken := t;
     lastProcessedTime := lastProcessedTime c;
     startupTime := startupTime c |}.

Definition setLastProcessedTime (c : Client) (t : Z) : Client :=
  {| userID := userID c; allowedDomain := allowedDomain c;
     SyncTokenFile := SyncTokenFile c; syncToken := syncToken c;
     lastProcessedTime := t;
     startupTime := startupTime c |}.

(** [NewClient]: [loaded] is the token read from the token file (empty
    when there is none or it cannot be read), [now] the clock in
    milliseconds. *)
Definition NewClient (uid dom file loaded : string) (now : Z) : Client :=
  {| userID := uid; allowedDomain := dom; SyncTokenFile := file;
     syncToken := loaded; lastProcessedTime := now; startupTime := now |}.

(** *** [IsFromAllowedDomain] *)

Definition IsFromAllowedDomain (c : Client) (uid : string) : bool :=
  let parts := strings.Split uid ":" in
  if negb (Nat.eqb (List.length parts) 2) then false
  else String.eqb (nth 1 parts EmptyString) (allowedDomain c).

(** *** [IsAddressedToBot] *)

(** [fullUsername] and [localpart] as both [IsAddressedToBot] and
    [HandleMessage] compute them *)
Definition fullUsernameOf (uid : string) : string :=
  strings.TrimPrefix uid "@".

Definition localpartOf (fullUsername : string) : string :=
  let idx := strings.Index fullUsername ":" in
  if 0 <=? idx then strings.upto (Z.to_nat idx) fullUsername
  else fullUsername.

(** the cutset of [strings.Trim] in the word loop: , . ! ? : ; the double
    quote, ' ( ) [ ] { } *)
Definition punctCutset : string :=
  ",.!?:;" ++ String (ascii_of_nat 34) "'()[]{}".

(** [nextChar == ',' || ... || nextChar == ';'] *)
Definition isTrailingPunct (c : ascii) : bool :=
  strings.memByte c ",.!?:;".

(** the body of the loop over [words]: does this word return [true]? *)
Definition wordMatches (localpart word0 : string) : bool :=
  let word := strings.ToLower (strings.Trim word0 punctCutset) in
  if String.eqb word localpart then true
  else if strings.HasPrefix word localpart
          && (strings.len localpart <? strings.len word)
  then match String.get (String.length localpart) word with
       | Some nextChar => isTrailingPunct nextChar
       | None => false
       end
  else false.

Definition IsAddressedToBot (c : Client) (content0 : string)
    (roomType : RoomType) : bool :=
  if RoomType_eqb roomType DirectRoom then true
  else
    let fullUsername := fullUsernameOf (userID c) in
    let localpart0 := localpartOf fullUsername in
    let fullMention := "@" ++ fullUsername in
    let content := strings.ToLower content0 in
    let localpart := strings.ToLower localpart0 in
    if strings.Contains content fullMention then true
    else if strings.Contains content localpart
            && existsb (wordMatches localpart) (strings.Fields content)
    then true
    else
      let colonCheck := localpart ++ ":" in
      strings.Contains content colonCheck.

(** The [return] statement of [IsAddressedToBot] that produces the
    result, in the order of the code. *)
Inductive Verdict :=
| ByDirectRoom | ByFullMention | ByWord | ByColon | NotAddressed.

Definition addressedBy (c : Client) (content0 : string)
    (roomType : RoomType) : Verdict :=
  if RoomType_eqb roomType DirectRoom then ByDirectRoom
  else
    let fullUsername := fullUsernameOf (userID c) in
    let localpart0 := localpartOf fullUsername in
    let fullMention := "@" ++ fullUsername in
    let content := strings.ToLower content0 in
    let localpart := strings.ToLower localpart0 in
    if strings.Contains content fullMention then ByFullMention
    else if strings.Contains content localpart
            && existsb (wordMatches localpart) (strings.Fields content)
    then ByWord
    else if strings.Contains content (localpart ++ ":") then ByColon
    else NotAddressed.

(** *** The event callback of [ListenForMessages] *)

(** The parts of a mautrix [event.Event] that the callback reads. *)
Inductive EventType := StateMember | EventMessage | OtherEventType.

Inductive Membership := MembershipInvite | MembershipJoin | MembershipOther.

Record Event := {
  evType : EventType;
  evSender : string;
  evRoomID : string;
  evTimestamp : Z;
  evStateKey : option string;      (* [StateKey *string] *)
  evMember : option Membership     (* [Content.AsMember()], [nil] is [None] *)
}.

(** [evt.GetStateKey()]: the empty string for a nil key *)
Definition GetStateKey (evt : Event) : string :=
  match evStateKey evt with
  | Some k => k
  | None => EmptyString
  end.

(** What the session loop does to the outside, in the order it does it. *)
Inductive Effect :=
| EJoinRoom (room : string)          (* [c.client.JoinRoom] *)
| EDispatch (evt : Event)            (* [go c.messageHandler(ctx, evt)] *)
| ESaveNextBatch (token : string)    (* [c.client.Store.SaveNextBatch] *)
| ESync                              (* [c.client.Sync()] is entered *)
| EWriteFile (file data : string)    (* [saveSyncToken]: [ioutil.WriteFile] *)
| ESleep (ms : Z).                   (* [time.Sleep] *)

Definition EventType_eqb (a b : EventType) : bool :=
  match a, b with
  | StateMember, StateMember | EventMessage, EventMessage
  | OtherEventType, OtherEventType => true
  | _, _ => false
  end.

(** the invite branch: the join is attempted, its outcome only logged *)
Definition inviteEffects (c : Client) (evt : Event) : list Effect :=
  if EventType_eqb (evType evt) StateMember then
    match evMember evt with
    | Some MembershipInvite =>
        if String.eqb (GetStateKey evt) (userID c)
        then [EJoinRoom (evRoomID evt)] else []
    | _ => []
    end
  else [].

(** The function registered with [syncer.OnEvent]: the client after the
    event and what was done. *)
Definition onEvent (c : Client) (evt : Event) : Client * list Effect :=
  let ts := evTimestamp evt in
  if (0 <? ts) && (ts <? startupTime c) then (c, [])
  else if (0 <? ts) && (ts <=? lastProcessedTime c) then (c, [])
  else
    let c1 := if 0 <? ts then setLastProcessedTime c ts else c in
    let joins := inviteEffects c1 evt in
    if negb (EventType_eqb (evType evt) EventMessage) then (c1, joins)
    else if String.eqb (evSender evt) (userID c1) then (c1, joins)
    else (c1, (joins ++ [EDispatch evt])%list).

(** the callback over the events of one sync, in delivery order *)
Fixpoint deliver (c : Client) (evts : list Event) : Client * list Effect :=
  match evts with
  | [] => (c, [])
  | evt :: rest =>
      let '(c1, out1) := onEvent c evt in
      let '(c2, out2) := deliver c1 rest in
      (c2, (out1 ++ out2)%list)
  end.

(** *** The sync loop of [ListenForMessages] *)

(** One turn of the [for] loop as the environment decides it. *)
Record SyncRun := {
  ctxDone : bool;             (* is [ctx.Done()] ready at the [select]? *)
  delivered : list Event;     (* the events [Sync()] hands to the callback *)
  syncErr : option error;     (* what [Sync()] returns *)
  nextBatch : string          (* [Store.LoadNextBatch] after [Sync()] *)
}.

Inductive LoopStatus :=
| Cancelled        (* [return] on [ctx.Done()] *)
| AuthFailed       (* [return] after an authentication error *)
| Streaming.       (* the loop is about to enter [Sync()] again *)

(** the three signatures tested on [err.Error()] *)
Definition isAuthError (msg : string) : bool :=
  strings.Contains msg "M_UNKNOWN_TOKEN"
  || strings.Contains msg "Invalid access token"
  || strings.Contains msg "401".

(** The code after [Sync()] has returned: the client, the effects, and
    whether the goroutine returns. *)
Definition afterSync (c : Client) (r : SyncRun)
    : Client * list Effect * bool :=
  let auth := match syncErr r with
              | Some msg => isAuthError msg
              | None => false
              end in
  if auth then
    (setSyncToken c EmptyString,
     [EWriteFile (SyncTokenFile c) EmptyString], true)
  else
    let '(c1, saved) :=
      if negb (String.eqb (nextBatch r) EmptyString)
      then (setSyncToken c (nextBatch r),
            [EWriteFile (SyncTokenFile c) (nextBatch r)])
      else (c, []) in
    match syncErr r with
    | Some _ => (c1, (saved ++ [ESleep 5000])%list, false)
    | None => (c1, saved, false)
    end.

(** The goroutine's loop, run against a finite script of turns.  When the
    script is used up the loop is still alive ([Streaming]). *)
Fixpoint syncLoop (c : Client) (script : list SyncRun)
    : Client * list Effect * LoopStatus :=
  match script with
  | [] => (c, [], Streaming)
  | r :: rest =>
      if ctxDone r then (c, [], Cancelled)
      else
        let '(c1, out) := deliver c (delivered r) in
        let '(c2, post, stop) := afterSync c1 r in
        if stop then (c2, (ESync :: out ++ post)%list, AuthFailed)
        else
          let '(c3, later, st) := syncLoop c2 rest in
          (c3, (ESync :: out ++ post ++ later)%list, st)
  end.

(** [ListenForMessages]: the returned error, and the run of the goroutine
    it starts.  [handlerSet] is [c.messageHandler != nil]. *)
Definition ListenForMessages (c : Client) (handlerSet : bool)
    (script : list SyncRun)
    : option error * (Client * list Effect * LoopStatus) :=
  if negb handlerSet then
    (Some "message handler not set", (c, [], Streaming))
  else
    let pre := if negb (String.eqb (syncToken c) EmptyString)
               then [ESaveNextBatch (syncToken c)] else [] in
    let '(c1, out, st) := syncLoop c script in
    (None, (c1, (pre ++ out)%list, st)).

End matrix.

(* ================================================================== *)
(** ** Package [chat]: the message handler *)

Module chat.
Import domain.

(** a Go result pair [(value, error)] *)
Inductive result (A : Type) :=
| Ok (a : A)
| Err (e : error).
Arguments Ok {A} a.
Arguments Err {A} e.

(** The calls the handler makes on its two services, in order. *)
Inductive Call :=
| CGetRoomType (room : string)
| CGetRoomContext (room : string) (limit : Z)
| CSendTyping (room : string) (typing : bool) (timeout : Z)
| CGenerateResponse (messages : list ConversationMessage)
| CSendMessage (room text : string).

(** What the services and the clock answer during one call of
    [HandleMessage].  The pure methods of the Matrix service
    ([IsFromAllowedDomain], [IsAddressedToBot], [GetBotUserID]) are those
    of [bot]. *)
Record World := {
  bot : matrix.Client;
  ContextMessageCount : Z;                       (* [h.config] *)
  roomTypeForHandler : result RoomType;          (* [GetRoomType], 1st call *)
  roomTypeForContext : result RoomType;          (* [GetRoomType], 2nd call *)
  roomContext : result (list Message);           (* [GetRoomContext] *)
  clockForContext : Z;      (* [time.Now()] in [getConversationContext] *)
  clockForFallback : Z;     (* [time.Now()] in the fallback of the handler *)
  typingResult : option error;                   (* [SendTyping(.., true, ..)] *)
  generate : list ConversationMessage -> result string;
  sendResult : option error                      (* [SendMessage] of the reply *)
}.

Definition GetBotUserID (w : World) : string := matrix.userID (bot w).

(** The removal of the bot's name, written twice in the source (in
    [HandleMessage] with the full mention, in [getConversationContext]
    with the bot id): [mention] is what the first [ReplaceAll] removes. *)
Definition removeMentions (mention localpart text : string) : string :=
  let t1 := strings.ReplaceAll text mention EmptyString in
  let t2 := strings.ReplaceAll t1 (" " ++ localpart ++ " ") " " in
  let t3 := strings.ReplaceAll t2 (" " ++ localpart) EmptyString in
  let t4 := if strings.HasPrefix t3 (localpart ++ " ")
            then strings.from (String.length localpart + 1) t3 else t3 in
  let t5 := if String.eqb t4 localpart then EmptyString else t4 in
  strings.TrimSpace t5.

(** the body of the loop over [messagesToProcess]: the entry a message
    contributes, if any *)
Definition reconcileOne (botID : string) (msg : Message)
    : option ConversationMessage :=
  if String.eqb (Content msg) EmptyString then None
  else
    let role := if IsFromBot msg then RoleAssistant else RoleUser in
    let localpart := matrix.localpartOf (strings.TrimPrefix botID "@") in
    let msgContent :=
      if negb (IsFromBot msg)
         && (strings.Contains (Content msg) botID
             || strings.Contains (strings.ToLower (Content msg))
                                 (strings.ToLower localpart))
      then removeMentions botID localpart (Content msg)
      else Content msg in
    if negb (String.eqb msgContent EmptyString)
    then Some {| cmRole := role; cmContent := msgContent;
                 cmTimestamp := Timestamp msg; cmSenderID := SenderID msg |}
    else None.

Fixpoint reconcile (botID : string) (msgs : list Message)
    : list ConversationMessage :=
  match msgs with
  | [] => []
  | m :: rest =>
      match reconcileOne botID m with
      | Some cm => cm :: reconcile botID rest
      | None => reconcile botID rest
      end
  end.

(** the test of the loop that looks for the current message *)
Definition sameAsCurrent (senderID currentMessage : string)
    (currentTimestamp : Z) (msg : ConversationMessage) : bool :=
  String.eqb (cmContent msg) currentMessage
  && String.eqb (cmSenderID msg) senderID
  && (Int64.sub currentTimestamp (cmTimestamp msg) <? 5000).

(** the entry appended for the message being handled *)
Definition currentEntry (senderID currentMessage : string)
    (currentTimestamp : Z) : ConversationMessage :=
  {| cmRole := RoleUser; cmContent := currentMessage;
     cmTimestamp := currentTimestamp; cmSenderID := senderID |}.

(** the messages kept from the fetch, still newest first *)
Definition recentMessagesOf (fetched : result (list Message))
    : list Message :=
  match fetched with
  | Err _ => []
  | Ok matrixMessages =>
      filter (fun m => negb (String.eqb (Content m) EmptyString))
             matrixMessages
  end.

(** [getConversationContext]: the window, the returned error and the
    calls made. *)
Definition getConversationContext (w : World)
    (senderID roomID currentMessage : string)
    : list ConversationMessage * option error * list Call :=
  let roomType := match roomTypeForContext w with
                  | Ok t => t
                  | Err _ => DirectRoom
                  end in
  let requestLimit := ContextMessageCount w in
  let recentMessages := recentMessagesOf (roomContext w) in
  let currentTimestamp := clockForContext w in
  let messagesToProcess := rev recentMessages in
  let conversationMessages := reconcile (GetBotUserID w) messagesToProcess in
  let currentMessageExists :=
    existsb (sameAsCurrent senderID currentMessage currentTimestamp)
            conversationMessages in
  let window :=
    if negb currentMessageExists
    then (conversationMessages
            ++ [currentEntry senderID currentMessage currentTimestamp])%list
    else conversationMessages in
  (window, None, [CGetRoomType roomID; CGetRoomContext roomID requestLimit]).

Definition apology : string := "Sorry, I'm having trouble thinking right now.".

(** [HandleMessage]: the returned error and the calls made. *)
Definition HandleMessage (w : World) (senderID roomID content : string)
    : option error * list Call :=
  if String.eqb content EmptyString then (None, [])
  else if negb (matrix.IsFromAllowedDomain (bot w) senderID) then (None, [])
  else
    match roomTypeForHandler w with
    | Err e =>
        (Some ("error determining room type: " ++ e), [CGetRoomType roomID])
    | Ok roomType =>
        if negb (matrix.IsAddressedToBot (bot w) content roomType)
        then (None, [CGetRoomType roomID])
        else
          let messageText :=
            if RoomType_eqb roomType GroupRoom then
              let fullUsername := matrix.fullUsernameOf (GetBotUserID w) in
              let localpart := matrix.localpartOf fullUsername in
              removeMentions ("@" ++ fullUsername) localpart content
            else content in
          if String.eqb messageText EmptyString
          then (None, [CGetRoomType roomID])
          else
            let '(found, err, calls) :=
              getConversationContext w senderID roomID messageText in
            let contextMessages :=
              match err with
              | Some _ => [currentEntry senderID messageText
                                        (clockForFallback w)]
              | None => found
              end in
            let before :=
              (CGetRoomType roomID :: calls
                 ++ [CSendTyping roomID true 30000;
                     CGenerateResponse contextMessages])%list in
            match generate w contextMessages with
            | Err e =>
                (Some ("error generating response: " ++ e),
                 (before ++ [CSendMessage roomID apology])%list)
            | Ok aiResponse =>
                let all :=
                  (before ++ [CSendTyping roomID false 0;
                              CSendMessage roomID aiResponse])%list in
                match sendResult w with
                | Some e => (Some ("error sending response: " ++ e), all)
                | None => (None, all)
                end
            end
    end.

(** the [SendMessage] calls among the calls made *)
Definition sends (calls : list Call) : list Call :=
  filter (fun c => match c with CSendMessage _ _ => true | _ => false end)
         calls.

End chat.

(* ================================================================== *)
(** ** Sample data for the concrete runs below *)

Module samples.
Import domain matrix chat.

Definition henry : Client :=
  NewClient "@henry:henhouse.im" "henhouse.im" "sync_token.txt"
            EmptyString 1000.

Definition alice : string := "@alice:henhouse.im".
Definition room : string := "!room:henhouse.im".

(** a message event of [alice] with the given timestamp *)
Definition messageAt (ts : Z) : Event :=
  {| evType := EventMessage; evSender := alice; evRoomID := room;
     evTimestamp := ts; evStateKey := None; evMember := None |}.

(** a turn of the sync loop that only delivers events and then fails
    with a network error *)
Definition turnWith (evts : list Event) : SyncRun :=
  {| ctxDone := false; delivered := evts;
     syncErr := Some "connection reset"; nextBatch := EmptyString |}.

(** a history entry *)
Definition said (who text : string) (ts : Z) (fromBot : bool) : Message :=
  {| ID := "$e"; RoomID := room; SenderID := who; Content := text;
     Timestamp := ts; IsFromBot := fromBot |}.

(** a world in which the history fetch answers [fetched] and the clock
    reads [now] *)
Definition world (fetched : result (list Message)) (now : Z) : World :=
  {| bot := henry; ContextMessageCount := 10;
     roomTypeForHandler := Ok DirectRoom;
     roomTypeForContext := Ok DirectRoom;
     roomContext := fetched;
     clockForContext := now; clockForFallback := now;
     typingResult := None;
     generate := fun _ => Ok "hi there";
     sendResult := None |}.

(** a sync that ends without an error, the store holding [token] *)
Definition cleanTurn (token : string) : SyncRun :=
  {| ctxDone := false; delivered := []; syncErr := None;
     nextBatch := token |}.

(** a sync that ends with the homeserver refusing the access token *)
Definition authTurn : SyncRun :=
  {| ctxDone := false; delivered := [messageAt 4000];
     syncErr := Some "M_UNKNOWN_TOKEN (HTTP 401): Invalid access token";
     nextBatch := "s42" |}.

End samples.

(* ================================================================== *)
(** ** Reading a trace of the session loop *)

Module observe.
Import matrix.

(** the timestamps of the events handed to the handler, in order, for the
    events that carry one *)
Fixpoint dispatchedStamps (out : list Effect) : list Z :=
  match out with
  | [] => []
  | EDispatch evt :: rest =>
      if 0 <? evTimestamp evt
      then evTimestamp evt :: dispatchedStamps rest
      else dispatchedStamps rest
  | _ :: rest => dispatchedStamps rest
  end.

(** what the token file holds after the writes of a trace, [before] being
    its content at the start (every [saveSyncToken] of the loop writes the
    same file) *)
Fixpoint fileAfter (before : string) (out : list Effect) : string :=
  match out with
  | [] => before
  | EWriteFile _ data :: rest => fileAfter data rest
  | _ :: rest => fileAfter before rest
  end.

(** the number of times [Sync()] is entered *)
Fixpoint syncCount (out : list Effect) : nat :=
  match out with
  | [] => O
  | ESync :: rest => S (syncCount rest)
  | _ :: rest => syncCount rest
  end.

(** the stamps of a stretch of the trace lie between the watermark before
    it (excluded) and the watermark after it (included), in increasing
    order *)
Definition stampsBetween (lo hi : Z) (stamps : list Z) : Prop :=
  lo <= hi /\ StronglySorted Z.lt stamps
  /\ Forall (fun t => lo < t <= hi) stamps.

End observe.

(* ================================================================== *)
(** ** Package [matrix]: the token file and [Connect] *)

Module tokenstore.

(** what [os.Stat] and [ioutil.ReadFile] find at the path of the token
    file *)
Inductive FileState :=
| Missing                       (* [os.IsNotExist] *)
| Unreadable (why : error)      (* [ReadFile] fails *)
| Holds (data : string).

(** [loadSyncToken] *)
Definition loadSyncToken (file : FileState) : string * option error :=
  match file with
  | Missing => (EmptyString, None)
  | Unreadable why =>
      (EmptyString, Some ("failed to read sync token file: " ++ why))
  | Holds data => (strings.TrimSpace data, None)
  end.

(** [saveSyncToken] when [ioutil.WriteFile] succeeds: the file is replaced
    by the token *)
Definition saveSyncToken (token : string) (file : FileState) : FileState :=
  Holds token.

(** [NewClient], the token read from the file: a load error is logged and
    leaves the token empty *)
Definition NewClientFrom (uid dom path : string) (file : FileState) (now : Z)
    : matrix.Client :=
  let '(syncToken, _) := loadSyncToken file in
  matrix.NewClient uid dom path syncToken now.

End tokenstore.

Module connect.
Import chat.

(** the fields of [config.Config] that [Connect] reads *)
Record Credentials := {
  MatrixUserID : string;
  MatrixPassword : string;
  MatrixAccessToken : string
}.

(** what the homeserver library answers *)
Record Server := {
  newClientErr : option error;            (* [mautrix.NewClient] *)
  loginResult : result (string * string)  (* [client.Login]: user id, token *)
}.

Inductive Step :=
| SLogin (user password : string)               (* [client.Login] *)
| SSetCredentials (uid token : string)          (* [client.SetCredentials] *)
| SWriteFile (file data : string)               (* [saveSyncToken] *)
| SProbeSync.                                   (* the 5 second test sync *)

Definition setUserID (c : matrix.Client) (uid : string) : matrix.Client :=
  {| matrix.userID := uid;
     matrix.allowedDomain := matrix.allowedDomain c;
     matrix.SyncTokenFile := matrix.SyncTokenFile c;
     matrix.syncToken := matrix.syncToken c;
     matrix.lastProcessedTime := matrix.lastProcessedTime c;
     matrix.startupTime := matrix.startupTime c |}.

(** the user name sent with the password: the user id without its "@" and
    without what follows the first colon *)
Definition loginUsername (uid : string) : string :=
  let username := strings.TrimPrefix uid "@" in
  let idx := strings.Index username ":" in
  if 0 <=? idx then strings.upto (Z.to_nat idx) username else username.

(** [Connect]: the returned error, the client afterwards, what was done.
    The outcome of the test sync is only logged. *)
Definition Connect (c : matrix.Client) (cfg : Credentials) (srv : Server)
    : option error * matrix.Client * list Step :=
  match newClientErr srv with
  | Some e => (Some ("failed to create Matrix client: " ++ e), c, [])
  | None =>
      if negb (String.eqb (MatrixPassword cfg) EmptyString) then
        let username := loginUsername (MatrixUserID cfg) in
        let login := SLogin username (MatrixPassword cfg) in
        match loginResult srv with
        | Err e =>
            let '(c1, cleared) :=
              if negb (String.eqb (matrix.syncToken c) EmptyString)
              then (matrix.setSyncToken c EmptyString,
                    [SWriteFile (matrix.SyncTokenFile c) EmptyString])
              else (c, []) in
            (Some ("failed to log in to Matrix: " ++ e), c1, login :: cleared)
        | Ok (uid, token) =>
            (None, setUserID c (MatrixUserID cfg),
             [login; SSetCredentials uid token; SProbeSync])
        end
      else if negb (String.eqb (MatrixAccessToken cfg) EmptyString) then
        (None, setUserID c (MatrixUserID cfg), [SProbeSync])
      else
        (Some "no access token or password available for authentication",
         c, [])
  end.

End connect.

(* ================================================================== *)
(** ** Package [matrix]: the history of a room and its type *)

Module history.
Import domain chat.

(** the type assertion of [evt.Content.Parsed] to a pointer to
    [event.MessageEventContent] *)
Inductive Parsed :=
| NotMessageContent             (* the type assertion fails *)
| NilMessageContent             (* it succeeds with a nil pointer *)
| MessageContent (body : string).

(** an event of the room history: the fields of [matrix.Event] and its
    content ([Raw] restricted to the two keys read) *)
Record HistoryEvent := {
  base : matrix.Event;
  evID : string;
  parsed : Parsed;
  rawMsgtype : option string;      (* [Raw["msgtype"].(string)] *)
  rawBody : option string          (* [Raw["body"].(string)] *)
}.

(** the manual parse of both [GetRoomContext]: an "m.text" with a non-empty
    body *)
Definition manualBody (evt : HistoryEvent) : option string :=
  match rawMsgtype evt with
  | Some msgType =>
      if String.eqb msgType "m.text" then
        match rawBody evt with
        | Some body =>
            if negb (String.eqb body EmptyString) then Some body else None
        | None => None
        end
      else None
  | None => None
  end.

(** the body with which an event passes the filters of the loop, if it
    does: a message event, parsed or parsed by hand, not empty *)
Definition usableBody (evt : HistoryEvent) : option string :=
  if negb (matrix.EventType_eqb (matrix.evType (base evt)) matrix.EventMessage)
  then None
  else
    let content :=
      match parsed evt with
      | MessageContent body => Some (Some body)
      | NilMessageContent => Some None
      | NotMessageContent =>
          match manualBody evt with
          | Some body => Some (Some body)
          | None => None
          end
      end in
    match content with
    | None => None                        (* [!ok]: [continue] *)
    | Some None => None                   (* [content == nil] *)
    | Some (Some body) =>
        if String.eqb body EmptyString then None else Some body
    end.

(** the loop of [Client.GetRoomContext] over [resp.Chunk]: usable events
    are appended until there are [limit] of them *)
Fixpoint keepUpTo (limit : Z) (kept : list HistoryEvent)
    (chunk : list HistoryEvent) : list HistoryEvent :=
  match chunk with
  | [] => kept
  | evt :: rest =>
      match usableBody evt with
      | None => keepUpTo limit kept rest
      | Some _ =>
          let kept' := (kept ++ [evt])%list in
          if limit <=? Z.of_nat (List.length kept') then kept'
          else keepUpTo limit kept' rest
      end
  end.

(** what the homeserver answers to [Messages] and to [State] (the events of
    the state map, in the order the maps are walked) *)
Record Homeserver := {
  messages : result (list HistoryEvent);
  state : result (list HistoryEvent)
}.

(** [Client.GetRoomContext] *)
Definition ClientGetRoomContext (hs : Homeserver) (limit : Z)
    : result (list HistoryEvent) :=
  match messages hs with
  | Err e => Err e
  | Ok chunk0 =>
      let fallback :=
        match chunk0 with
        | [] =>
            match state hs with
            | Err e => Err e
            | Ok stateEvents =>
                let events :=
                  filter (fun evt =>
                            matrix.EventType_eqb (matrix.evType (base evt))
                              matrix.EventMessage)
                         stateEvents in
                match events with
                | [] => Ok chunk0
                | _ => Ok events
                end
            end
        | _ => Ok chunk0
        end in
      match fallback with
      | Err e => Err e
      | Ok chunk => Ok (keepUpTo limit [] chunk)
      end
  end.

(** the conversion loop of [Service.GetRoomContext] *)
Fixpoint toMessages (botID : string) (events : list HistoryEvent)
    : list Message :=
  match events with
  | [] => []
  | evt :: rest =>
      match usableBody evt with
      | None => toMessages botID rest
      | Some body =>
          {| ID := evID evt;
             RoomID := matrix.evRoomID (base evt);
             SenderID := matrix.evSender (base evt);
             Content := body;
             Timestamp := matrix.evTimestamp (base evt);
             IsFromBot := String.eqb (matrix.evSender (base evt)) botID |}
          :: toMessages botID rest
      end
  end.

(** [Service.GetRoomContext] *)
Definition GetRoomContext (botID : string) (hs : Homeserver) (limit : Z)
    : result (list Message) :=
  match ClientGetRoomContext hs limit with
  | Err e => Err e
  | Ok events => Ok (toMessages botID events)
  end.

(** the count of [GetRoomType]: the membership events that are joins *)
Definition isJoin (evt : HistoryEvent) : bool :=
  matrix.EventType_eqb (matrix.evType (base evt)) matrix.StateMember
  && match matrix.evMember (base evt) with
     | Some matrix.MembershipJoin => true
     | _ => false
     end.

Fixpoint joinedMembers (stateEvents : list HistoryEvent) : Z :=
  match stateEvents with
  | [] => 0
  | evt :: rest =>
      (if isJoin evt then 1 else 0) + joinedMembers rest
  end.

(** [Client.GetRoomType] *)
Definition GetRoomType (stateRes : result (list HistoryEvent))
    : result RoomType :=
  match stateRes with
  | Err e => Err e
  | Ok stateEvents =>
      if joinedMembers stateEvents =? 2 then Ok DirectRoom else Ok GroupRoom
  end.

End history.

(* ================================================================== *)
(** ** More sample data *)

Module fixtures.
Import domain matrix chat.

(** an invitation of the bot [samples.henry] to [room], sent at [ts] *)
Definition inviteTo (room : string) (ts : Z) : Event :=
  {| evType := StateMember; evSender := samples.alice; evRoomID := room;
     evTimestamp := ts; evStateKey := Some "@henry:henhouse.im";
     evMember := Some MembershipInvite |}.

(** a text message of the history *)
Definition textEvent (id who body : string) (ts : Z) : history.HistoryEvent :=
  {| history.base :=
       {| evType := EventMessage; evSender := who; evRoomID := samples.room;
          evTimestamp := ts; evStateKey := None; evMember := None |};
     history.evID := id;
     history.parsed := history.MessageContent body;
     history.rawMsgtype := Some "m.text";
     history.rawBody := Some body |}.

(** a membership event of the room state *)
Definition memberEvent (who : string) (membership : Membership)
    : history.HistoryEvent :=
  {| history.base :=
       {| evType := StateMember; evSender := who; evRoomID := samples.room;
          evTimestamp := 900; evStateKey := Some who;
          evMember := Some membership |};
     history.evID := "$m";
     history.parsed := history.NotMessageContent;
     history.rawMsgtype := None;
     history.rawBody := None |}.

(** a homeserver that answers the history request with four events, one of
    them with an empty body *)
Definition answered : history.Homeserver :=
  {| history.messages :=
       chat.Ok [textEvent "$3" samples.alice "bye" 3000;
                textEvent "$2" samples.alice EmptyString 2500;
                textEvent "$1" "@henry:henhouse.im" "hello" 2000;
                textEvent "$0" samples.alice "hi" 1000];
     history.state := chat.Err "not asked" |}.

End fixtures.

(* ================================================================== *)
(** ** Package [room]: inviting and joining *)

Module room.
Import chat.

(** the calls the two services make on the Matrix service *)
Inductive Call :=
| RJoinRoom (room : string)
| RCreateRoom (name topic : string) (invitees : list string) (isDirect : bool)
| RInviteUser (room user : string)
| RSendMessage (room text : string).

(** what the Matrix service answers *)
Record Matrix := {
  joinResult : option error;
  createRoomResult : result string;
  inviteResult : option error;
  sendResult : option error
}.



(** [JoinService.tryAlternativeJoinMethods] *)
Definition tryAlternativeJoinMethods (mx : Matrix) (roomID : string)
    : option error * list Call :=
  let create := RCreateRoom "New Direct Chat" "Chat created by join command"
                  [] true in
  match createRoomResult mx with
  | Err e => (Some ("all join methods failed: " ++ e), [create])
  | Ok _ => (None, [create])
  end.

(** [JoinService.JoinRoom] *)
Definition JoinRoom (mx : Matrix) (roomID : string)
    : option error * list Call :=
  match joinResult mx with
  | Some e =>
      if strings.HasPrefix roomID "!" then
        let '(err, calls) := tryAlternativeJoinMethods mx roomID in
        (err, RJoinRoom roomID :: calls)
      else (Some ("failed to join room: " ++ e), [RJoinRoom roomID])
  | None => (None, [RJoinRoom roomID])
  end.

End room.

(* ================================================================== *)
(** ** Package [config] *)

Module config.

Record Config := {
  MatrixHomeserver : string;
  MatrixUserID : string;
  MatrixAccessToken : string;
  MatrixPassword : string;
  SyncTokenFile : string;
  ClaudeAPIKey : string;
  ContextMessageCount : Z;
  AllowedDomain : string;
  OwnerID : string
}.

(** [os.Getenv]: the empty string for a variable that is not set *)
Definition Env := string -> string.

(** the errors of [LoadConfig]; the first four are fixed texts, the last
    wraps the error of [strconv.Atoi], whose text is not modelled *)
Inductive ConfigError :=
| NoHomeserver | NoUserID | NoCredentials | NoAPIKey | InvalidCount.

Inductive outcome (A : Type) :=
| Loaded (a : A)
| Refused (e : ConfigError).
Arguments Loaded {A} a.
Arguments Refused {A} e.

Definition isDigit (c : ascii) : bool :=
  let n := nat_of_ascii c in (48 <=? n)%nat && (n <=? 57)%nat.

(** the value of a run of decimal digits, [None] if another byte occurs *)
Fixpoint digitsValue (acc : Z) (s : string) : option Z :=
  match s with
  | EmptyString => Some acc
  | String c cs =>
      if isDigit c
      then digitsValue (acc * 10 + (Z.of_nat (nat_of_ascii c) - 48)) cs
      else None
  end.

(** [strconv.Atoi] on a 64-bit platform: an optional sign, at least one
    decimal digit, nothing else, and a value that fits an [int]; [None] is
    an error, of syntax or of range *)
Definition Atoi (s : string) : option Z :=
  let '(negative, digits) :=
    match s with
    | String "-" rest => (true, rest)
    | String "+" rest => (false, rest)
    | _ => (false, s)
    end in
  match digits with
  | EmptyString => None
  | _ =>
      match digitsValue 0 digits with
      | None => None
      | Some n =>
          let v := if negative then - n else n in
          if (Int64.min_signed <=? v) && (v <=? Int64.max_signed)
          then Some v else None
      end
  end.

(** [LoadConfig] *)
Definition LoadConfig (env : Env) : outcome Config :=
  let homeserver := env "HENRY_MATRIX_HOMESERVER" in
  let userID := env "HENRY_MATRIX_USER_ID" in
  let accessToken := env "HENRY_MATRIX_ACCESS_TOKEN" in
  let password := env "HENRY_MATRIX_PASSWORD" in
  let apiKey := env "HENRY_CLAUDE_API_KEY" in
  if String.eqb homeserver EmptyString then Refused NoHomeserver
  else if String.eqb userID EmptyString then Refused NoUserID
  else if String.eqb accessToken EmptyString
          && String.eqb password EmptyString then Refused NoCredentials
  else if String.eqb apiKey EmptyString then Refused NoAPIKey
  else
    let contextCountStr := env "HENRY_CONTEXT_MESSAGE_COUNT" in
    let count :=
      if String.eqb contextCountStr EmptyString then Some 10
      else Atoi contextCountStr in
    match count with
    | None => Refused InvalidCount
    | Some contextCount =>
        let allowedDomain := env "HENRY_ALLOWED_DOMAIN" in
        let tokenFile := env "HENRY_SYNC_TOKEN_FILE" in
        Loaded
          {| MatrixHomeserver := homeserver;
             MatrixUserID := userID;
             MatrixAccessToken := accessToken;
             MatrixPassword := password;
             SyncTokenFile :=
               if String.eqb tokenFile EmptyString then "sync_token.txt"
               else tokenFile;
             ClaudeAPIKey := apiKey;
             ContextMessageCount := contextCount;
             AllowedDomain :=
               if negb (String.eqb allowedDomain EmptyString)
               then allowedDomain else "henhouse.im";
             OwnerID := env "HENRY_OWNER_ID" |}
    end.

(** an environment given by a list of settings, the first one winning *)
Fixpoint envOf (settings : list (string * string)) : Env :=
  fun name =>
    match settings with
    | [] => EmptyString
    | (k, v) :: rest => if String.eqb k name then v else envOf rest name
    end.

End config.

(* ================================================================== *)
(** ** Package [claude]: the reference time of [GenerateResponse] *)

Module claude.
Import domain.

(** the loop that finds the latest timestamp of the messages, from zero *)
Fixpoint latestFrom (latestTimestamp : Z) (messages : list ConversationMessage)
    : Z :=
  match messages with
  | [] => latestTimestamp
  | msg :: rest =>
      latestFrom (if latestTimestamp <? cmTimestamp msg
                  then cmTimestamp msg else latestTimestamp) rest
  end.

Definition latestTimestamp (messages : list ConversationMessage) : Z :=
  latestFrom 0 messages.

(** the name put before the text of a message *)
Definition senderInfoOf (msg : ConversationMessage) : string :=
  if String.eqb (cmSenderID msg) EmptyString then
    match cmRole msg with
    | RoleUser => "User"
    | RoleAssistant => "Henry"
    end
  else cmSenderID msg.

(** does the date given to the model come from the messages (and not from
    the system clock)? *)
Definition dateFromMessages (messages : list ConversationMessage) : bool :=
  0 <? latestTimestamp messages.

End claude.

Example ex_split :
  strings.Split "@a:b:c" ":" = ["@a"; "b"; "c"]
  /\ strings.Split EmptyString ":" = [EmptyString].
Proof. split; reflexivity. Qed.
Example ex_fields :
  strings.Fields "  ask henry:  what time " = ["ask"; "henry:"; "what"; "time"].
Proof. reflexivity. Qed.
Example ex_trim : strings.Trim "(henry:)," matrix.punctCutset = "henry".
Proof. reflexivity. Qed.
Example ex_replace :
  strings.ReplaceAll "a henry b henry" " henry" EmptyString = "a b".
Proof. reflexivity. Qed.
Example ex_addr :
  let c := matrix.NewClient "@henry:henhouse.im" "henhouse.im" "f" EmptyString 1000 in
  matrix.IsAddressedToBot c "henrysmith did this" domain.GroupRoom = false
  /\ matrix.IsAddressedToBot c "henry, hi" domain.GroupRoom = true
  /\ matrix.IsAddressedToBot c "ask henry: what time is it" domain.GroupRoom = true
  /\ matrix.addressedBy c "yo @HENRY:henhouse.im" domain.GroupRoom = matrix.ByFullMention.
Proof. repeat split; reflexivity. Qed.

(* ================================================================== *)
(** * Properties *)

(** ** The event callback: watermark and stale events *)

Section EventCallback.
Import matrix.

Lemma onEvent_startupTime c evt :
  startupTime (fst (onEvent c evt)) = startupTime c.
Proof.
  unfold onEvent.
  destruct ((0 <? evTimestamp evt) && (evTimestamp evt <? startupTime c));
    [reflexivity|].
  destruct ((0 <? evTimestamp evt)
            && (evTimestamp evt <=? lastProcessedTime c)); [reflexivity|].
  assert (K : startupTime
                (if 0 <? evTimestamp evt
                 then setLastProcessedTime c (evTimestamp evt) else c)
              = startupTime c)
    by (destruct (0 <? evTimestamp evt); reflexivity).
  destruct (negb (EventType_eqb (evType evt) EventMessage)); [exact K|].
  destruct (String.eqb _ _); exact K.
Qed.

Lemma onEvent_watermark c evt :
  lastProcessedTime c <= lastProcessedTime (fst (onEvent c evt)).
Proof.
  unfold onEvent.
  destruct ((0 <? evTimestamp evt) && (evTimestamp evt <? startupTime c));
    [simpl; lia|].
  destruct ((0 <? evTimestamp evt)
            && (evTimestamp evt <=? lastProcessedTime c)) eqn:Seen;
    [simpl; lia|].
  assert (K : lastProcessedTime c
              <= lastProcessedTime
                   (if 0 <? evTimestamp evt
                    then setLastProcessedTime c (evTimestamp evt) else c)).
  { destruct (0 <? evTimestamp evt) eqn:Pos; simpl in *; [|lia].
    apply Z.leb_gt in Seen. lia. }
  destruct (negb (EventType_eqb (evType evt) EventMessage)); [exact K|].
  destruct (String.eqb _ _); exact K.
Qed.

Lemma deliver_app c pre post :
  deliver c (pre ++ post)
  = let '(c1, out1) := deliver c pre in
    let '(c2, out2) := deliver c1 post in
    (c2, (out1 ++ out2)%list).
Proof.
  revert c. induction pre as [|evt pre IH]; intros c; simpl.
  - destruct (deliver c post); reflexivity.
  - destruct (onEvent c evt) as [c1 o1]. rewrite IH.
    destruct (deliver c1 pre) as [c2 o2].
    destruct (deliver c2 post) as [c3 o3].
    now rewrite app_assoc.
Qed.

Lemma deliver_startupTime c evts :
  startupTime (fst (deliver c evts)) = startupTime c.
Proof.
  revert c. induction evts as [|evt evts IH]; intros c; simpl; [reflexivity|].
  pose proof (onEvent_startupTime c evt) as H1.
  destruct (onEvent c evt) as [c1 o1]. specialize (IH c1).
  destruct (deliver c1 evts) as [c2 o2]. simpl in *. congruence.
Qed.

Lemma deliver_watermark c evts :
  lastProcessedTime c <= lastProcessedTime (fst (deliver c evts)).
Proof.
  revert c. induction evts as [|evt evts IH]; intros c; simpl; [lia|].
  pose proof (onEvent_watermark c evt) as H1.
  destruct (onEvent c evt) as [c1 o1]. specialize (IH c1).
  destruct (deliver c1 evts) as [c2 o2]. simpl in *. lia.
Qed.

(** an event the callback hands to the handler is not a stale one *)
Lemma onEvent_dispatch_fresh c evt e :
  In (EDispatch e) (snd (onEvent c evt)) ->
  e = evt /\ ~ (0 < evTimestamp e < startupTime c).
Proof.
  unfold onEvent.
  destruct ((0 <? evTimestamp evt) && (evTimestamp evt <? startupTime c))
    eqn:Stale; [simpl; tauto|].
  destruct ((0 <? evTimestamp evt)
            && (evTimestamp evt <=? lastProcessedTime c)); [simpl; tauto|].
  assert (NoJoin : forall c', ~ In (EDispatch e) (inviteEffects c' evt)).
  { intros c'. unfold inviteEffects.
    destruct (EventType_eqb _ _); [|simpl; tauto].
    destruct (evMember evt) as [[| |]|]; try (simpl; tauto).
    destruct (String.eqb _ _); simpl; [|tauto].
    intros [K|[]]; discriminate. }
  destruct (negb (EventType_eqb (evType evt) EventMessage));
    [simpl; intros K; now apply NoJoin in K|].
  destruct (String.eqb _ _); [simpl; intros K; now apply NoJoin in K|].
  simpl. intros K. apply in_app_or in K. destruct K as [K|K];
    [now apply NoJoin in K|].
  destruct K as [K|[]]. injection K as <-. split; [reflexivity|].
  apply andb_false_iff in Stale. intros [P Q].
  destruct Stale as [S|S]; [apply Z.ltb_ge in S|apply Z.ltb_ge in S]; lia.
Qed.

Lemma deliver_dispatch_fresh c evts e :
  In (EDispatch e) (snd (deliver c evts)) ->
  In e evts /\ ~ (0 < evTimestamp e < startupTime c).
Proof.
  revert c. induction evts as [|evt evts IH]; intros c; simpl; [tauto|].
  pose proof (onEvent_dispatch_fresh c evt e) as H1.
  pose proof (onEvent_startupTime c evt) as H2.
  destruct (onEvent c evt) as [c1 o1]. specialize (IH c1).
  destruct (deliver c1 evts) as [c2 o2]. simpl in *.
  intros K. apply in_app_or in K. destruct K as [K|K].
  - destruct (H1 K) as [-> F]. tauto.
  - destruct (IH K) as [I F]. rewrite H2 in F. tauto.
Qed.

Lemma afterSync_fields c r :
  let c' := fst (fst (afterSync c r)) in
  startupTime c' = startupTime c
  /\ lastProcessedTime c' = lastProcessedTime c
  /\ SyncTokenFile c' = SyncTokenFile c.
Proof.
  unfold afterSync.
  destruct (match syncErr r with Some msg => isAuthError msg | None => false end);
    [simpl; tauto|].
  destruct (negb (String.eqb (nextBatch r) EmptyString));
    destruct (syncErr r); simpl; tauto.
Qed.

Lemma afterSync_no_dispatch c r e :
  ~ In (EDispatch e) (snd (fst (afterSync c r))).
Proof.
  unfold afterSync.
  destruct (match syncErr r with Some msg => isAuthError msg | None => false end).
  - simpl. intros [K|[]]; discriminate.
  - destruct (negb (String.eqb (nextBatch r) EmptyString));
      destruct (syncErr r); simpl; intuition discriminate.
Qed.

End EventCallback.

Section SyncLoopFilter.
Import matrix.

Lemma syncLoop_invariants c script :
  let '(c', out, _) := syncLoop c script in
  startupTime c' = startupTime c
  /\ lastProcessedTime c <= lastProcessedTime c'
  /\ forall e, In (EDispatch e) out ->
               ~ (0 < evTimestamp e < startupTime c).
Proof.
  revert c. induction script as [|r rest IH]; intros c; simpl.
  - repeat split; [lia|]. intros e [].
  - destruct (ctxDone r); [repeat split; [lia|intros e []]|].
    pose proof (deliver_startupTime c (delivered r)) as S1.
    pose proof (deliver_watermark c (delivered r)) as W1.
    pose proof (deliver_dispatch_fresh c (delivered r)) as D1.
    destruct (deliver c (delivered r)) as [c1 out]. simpl in S1, W1, D1.
    pose proof (afterSync_fields c1 r) as F.
    pose proof (afterSync_no_dispatch c1 r) as N.
    destruct (afterSync c1 r) as [[c2 post] stop]. simpl in F, N.
    destruct F as (F1 & F2 & _).
    assert (Here : forall e, In (EDispatch e) (ESync :: out ++ post) ->
                             ~ (0 < evTimestamp e < startupTime c)).
    { intros e [K|K]; [discriminate|].
      apply in_app_or in K. destruct K as [K|K]; [now apply D1 in K|].
      now apply N in K. }
    destruct stop.
    + repeat split; [congruence|lia|exact Here].
    + specialize (IH c2). destruct (syncLoop c2 rest) as [[c3 later] st].
      destruct IH as (I1 & I2 & I3).
      repeat split; [congruence|lia|].
      intros e K. change (ESync :: out ++ post ++ later)%list
        with ((ESync :: out) ++ post ++ later)%list in K.
      rewrite app_assoc in K. apply in_app_or in K. destruct K as [K|K].
      * now apply Here.
      * apply I3 in K. rewrite F1, S1 in K. exact K.
Qed.

End SyncLoopFilter.

(** C2 (as amended): whatever events the sync loop delivers to the callback,
    in whatever order and over however many reconnections, an event that
    carries a timestamp (greater than zero) smaller than the client's
    startup time is never handed to the message handler. *)
Theorem stale_event_never_dispatched
    (c : matrix.Client) (handlerSet : bool) (script : list matrix.SyncRun)
    (e : matrix.Event) :
  0 < matrix.evTimestamp e < matrix.startupTime c ->
  ~ In (matrix.EDispatch e) (snd (fst (matrix.syncLoop c script)))
  /\ ~ In (matrix.EDispatch e)
          (snd (fst (snd (matrix.ListenForMessages c handlerSet script)))).
Proof.
  intros Stale.
  pose proof (syncLoop_invariants c script) as H.
  unfold matrix.ListenForMessages.
  destruct (matrix.syncLoop c script) as [[c' out] st].
  destruct H as (_ & _ & H).
  assert (Loop : ~ In (matrix.EDispatch e) out)
    by (intros K; exact (H e K Stale)).
  split; [exact Loop|].
  destruct handlerSet; simpl; [|tauto].
  destruct (negb _); simpl; [|exact Loop].
  intros [K|K]; [discriminate|now apply Loop].
Qed.

Lemma stale_event_never_dispatched_witness :
  0 < matrix.evTimestamp (samples.messageAt 500)
    < matrix.startupTime samples.henry
  /\ ~ In (matrix.EDispatch (samples.messageAt 500))
          (snd (fst (matrix.syncLoop samples.henry
                       [samples.turnWith [samples.messageAt 500;
                                          samples.messageAt 1500]]))).
Proof.
  split.
  - simpl. lia.
  - apply (stale_event_never_dispatched samples.henry true
             [samples.turnWith [samples.messageAt 500; samples.messageAt 1500]]
             (samples.messageAt 500)).
    simpl. lia.
Defined.

(** C2, the claim as written fails: a message event without a timestamp
    (zero) is older than the startup time and is handed to the handler. *)
Lemma stale_event_zero_timestamp_dispatched :
  matrix.evTimestamp (samples.messageAt 0) < matrix.startupTime samples.henry
  /\ matrix.syncLoop samples.henry [samples.turnWith [samples.messageAt 0]]
     = (samples.henry,
        [matrix.ESync; matrix.EDispatch (samples.messageAt 0);
         matrix.ESleep 5000],
        matrix.Streaming).
Proof. split; [simpl; lia | reflexivity]. Qed.

(** C3: the watermark [lastProcessedTime] never moves backward: after any
    further events it is at least what it was after any prefix of them, and
    the sync loop as a whole never lowers it. *)
Theorem watermark_never_moves_back
    (c : matrix.Client) (pre post : list matrix.Event)
    (script : list matrix.SyncRun) :
  matrix.lastProcessedTime (fst (matrix.deliver c pre))
    <= matrix.lastProcessedTime (fst (matrix.deliver c (pre ++ post)))
  /\ matrix.lastProcessedTime c
     <= matrix.lastProcessedTime (fst (fst (matrix.syncLoop c script)))
  /\ forall c' evt,
       matrix.lastProcessedTime c'
       <= matrix.lastProcessedTime (fst (matrix.onEvent c' evt)).
Proof.
  split; [|split; [|exact onEvent_watermark]].
  - rewrite deliver_app.
    pose proof (deliver_watermark (fst (matrix.deliver c pre)) post) as W.
    destruct (matrix.deliver c pre) as [c1 o1]. simpl in W.
    destruct (matrix.deliver c1 post) as [c2 o2]. exact W.
  - pose proof (syncLoop_invariants c script) as H.
    destruct (matrix.syncLoop c script) as [[c' out] st]. simpl. tauto.
Qed.

(** the watermark does move: an out-of-order delivery is dropped, a fresh
    one advances it *)
Example watermark_run :
  matrix.lastProcessedTime
    (fst (matrix.deliver samples.henry
            [samples.messageAt 3000; samples.messageAt 2000;
             samples.messageAt 0]))
  = 3000
  /\ snd (matrix.deliver samples.henry
            [samples.messageAt 3000; samples.messageAt 2000;
             samples.messageAt 0])
     = [matrix.EDispatch (samples.messageAt 3000);
        matrix.EDispatch (samples.messageAt 0)].
Proof. split; reflexivity. Qed.

(** ** The mention detector *)

(** [IsAddressedToBot] answers [true] exactly when one of its [return true]
    statements, or the final colon test, fires. *)
Lemma IsAddressedToBot_addressedBy c content roomType :
  matrix.IsAddressedToBot c content roomType
  = match matrix.addressedBy c content roomType with
    | matrix.NotAddressed => false
    | _ => true
    end.
Proof.
  unfold matrix.IsAddressedToBot, matrix.addressedBy.
  destruct (domain.RoomType_eqb roomType domain.DirectRoom); [reflexivity|].
  cbv zeta.
  destruct (strings.Contains (strings.ToLower content) _); [reflexivity|].
  destruct (_ && _); [reflexivity|].
  destruct (strings.Contains _ _); reflexivity.
Qed.

(** C5: in a direct room every text, the empty one included, is addressed
    to the bot, whatever the bot's identity. *)
Theorem direct_room_always_addressed (c : matrix.Client) (T : string) :
  matrix.IsAddressedToBot c T domain.DirectRoom = true
  /\ matrix.IsAddressedToBot c EmptyString domain.DirectRoom = true.
Proof. split; reflexivity. Qed.

(** C6: for a bot whose local name is "henry", in a group room:
    "henrysmith did this" is not addressed to the bot, "henry, hi" and
    "ask henry: what time is it" are. *)
Theorem word_boundary_examples (c : matrix.Client) :
  matrix.localpartOf (matrix.fullUsernameOf (matrix.userID c)) = "henry" ->
  matrix.IsAddressedToBot c "henrysmith did this" domain.GroupRoom = false
  /\ matrix.IsAddressedToBot c "henry, hi" domain.GroupRoom = true
  /\ matrix.IsAddressedToBot c "ask henry: what time is it" domain.GroupRoom
     = true.
Proof.
  intros L. unfold matrix.IsAddressedToBot. cbv zeta. rewrite L.
  repeat split; reflexivity.
Qed.

Lemma word_boundary_examples_witness :
  matrix.localpartOf (matrix.fullUsernameOf (matrix.userID samples.henry))
  = "henry"
  /\ matrix.IsAddressedToBot samples.henry "henrysmith did this"
       domain.GroupRoom = false
  /\ matrix.IsAddressedToBot samples.henry "henry, hi" domain.GroupRoom = true
  /\ matrix.IsAddressedToBot samples.henry "ask henry: what time is it"
       domain.GroupRoom = true.
Proof.
  split; [reflexivity|].
  apply (word_boundary_examples samples.henry). reflexivity.
Defined.

(** the same three answers when the identity has no domain part at all *)
Example word_boundary_plain_identity :
  let c := matrix.NewClient "henry" "henhouse.im" "f" EmptyString 0 in
  matrix.addressedBy c "henrysmith did this" domain.GroupRoom
  = matrix.NotAddressed
  /\ matrix.addressedBy c "henry, hi" domain.GroupRoom = matrix.ByWord
  /\ matrix.addressedBy c "ask henry: what time is it" domain.GroupRoom
     = matrix.ByWord.
Proof. repeat split; reflexivity. Qed.

(** ** The allowed domain *)

Lemma splitFrom_colon_length s cur :
  List.length (strings.splitFrom s ":" cur O)
  = S (strings.countByte ":" s).
Proof.
  revert cur. induction s as [|d ds IH]; intros cur; [reflexivity|].
  cbn [strings.splitFrom strings.HasPrefix strings.countByte].
  rewrite andb_true_r.
  destruct (Ascii.eqb d ":"); cbn [String.length Nat.pred List.length];
    rewrite IH; reflexivity.
Qed.

Lemma Split_colon_length s :
  List.length (strings.Split s ":") = S (strings.countByte ":" s).
Proof. apply splitFrom_colon_length. Qed.

(** C10: a user id that does not contain exactly one ":" is never from the
    allowed domain, whatever the allowed domain is, and [HandleMessage]
    then returns no error and calls no service: nothing is sent. *)
Theorem malformed_sender_rejected
    (w : chat.World) (senderID roomID content : string) :
  strings.countByte ":" senderID <> 1%nat ->
  matrix.IsFromAllowedDomain (chat.bot w) senderID = false
  /\ chat.HandleMessage w senderID roomID content = (None, [])
  /\ chat.sends (snd (chat.HandleMessage w senderID roomID content)) = [].
Proof.
  intros N.
  assert (R : matrix.IsFromAllowedDomain (chat.bot w) senderID = false).
  { unfold matrix.IsFromAllowedDomain. cbv zeta.
    rewrite Split_colon_length.
    destruct (strings.countByte ":" senderID) as [|[|k]];
      [reflexivity|congruence|reflexivity]. }
  assert (H : chat.HandleMessage w senderID roomID content = (None, [])).
  { unfold chat.HandleMessage. rewrite R.
    destruct (String.eqb content EmptyString); reflexivity. }
  rewrite H. repeat split. exact R.
Qed.

Lemma malformed_sender_rejected_witness :
  strings.countByte ":" "u1" <> 1%nat
  /\ matrix.IsFromAllowedDomain
       (chat.bot (samples.world (chat.Ok []) 5000)) "u1" = false
  /\ chat.HandleMessage (samples.world (chat.Ok []) 5000) "u1" samples.room
       "hello" = (None, [])
  /\ chat.sends (snd (chat.HandleMessage (samples.world (chat.Ok []) 5000)
                        "u1" samples.room "hello")) = [].
Proof.
  split; [simpl; discriminate|].
  apply (malformed_sender_rejected (samples.world (chat.Ok []) 5000)
           "u1" samples.room "hello").
  simpl. discriminate.
Defined.

(** ids with two colons are rejected even when they end in the allowed
    domain; a well-formed id of the allowed domain is accepted and
    answered *)
Example allowed_domain_runs :
  matrix.IsFromAllowedDomain samples.henry "@a:b:henhouse.im" = false
  /\ matrix.IsFromAllowedDomain samples.henry "@a:matrix.org" = false
  /\ matrix.IsFromAllowedDomain samples.henry samples.alice = true
  /\ chat.sends (snd (chat.HandleMessage (samples.world (chat.Ok []) 5000)
                        samples.alice samples.room "hello"))
     = [chat.CSendMessage samples.room "hi there"].
Proof. repeat split; reflexivity. Qed.

(** ** The history reconciler *)

Section Reconciler.
Import domain chat.

Lemma reconcile_app botID l1 l2 :
  reconcile botID (l1 ++ l2) = (reconcile botID l1 ++ reconcile botID l2)%list.
Proof.
  induction l1 as [|m l1 IH]; simpl; [reflexivity|].
  destruct (reconcileOne botID m); simpl; now rewrite IH.
Qed.

(** an entry keeps the timestamp and the sender of its message *)
Lemma reconcileOne_keeps botID m cm :
  reconcileOne botID m = Some cm ->
  cmTimestamp cm = Timestamp m /\ cmSenderID cm = SenderID m
  /\ cmContent cm <> EmptyString /\ Content m <> EmptyString.
Proof.
  unfold reconcileOne.
  destruct (String.eqb (Content m) EmptyString) eqn:E; [discriminate|].
  cbv zeta.
  match goal with
  | |- (if negb (String.eqb ?t EmptyString) then _ else _) = _ -> _ =>
      destruct (String.eqb t EmptyString) eqn:E2
  end; simpl; [discriminate|].
  intros K. injection K as <-. simpl.
  apply String.eqb_neq in E, E2. tauto.
Qed.

Lemma reconcile_timestamps_from botID l t :
  In t (map cmTimestamp (reconcile botID l)) -> In t (map Timestamp l).
Proof.
  induction l as [|m l IH]; simpl; [tauto|].
  destruct (reconcileOne botID m) as [cm|] eqn:E; simpl.
  - apply reconcileOne_keeps in E. destruct E as (-> & _). tauto.
  - tauto.
Qed.

Lemma reconcile_sorted (R : Z -> Z -> Prop) botID l :
  StronglySorted R (map Timestamp l) ->
  StronglySorted R (map cmTimestamp (reconcile botID l)).
Proof.
  induction l as [|m l IH]; simpl; intros S; [constructor|].
  inversion S as [|? ? S' F]; subst.
  destruct (reconcileOne botID m) as [cm|] eqn:E; simpl; [|auto].
  constructor; [auto|].
  apply reconcileOne_keeps in E. destruct E as (-> & _).
  rewrite Forall_forall in *. intros t K.
  apply F. now apply reconcile_timestamps_from in K.
Qed.

Lemma filter_sorted (R : Z -> Z -> Prop) (p : Message -> bool) l :
  StronglySorted R (map Timestamp l) ->
  StronglySorted R (map Timestamp (filter p l)).
Proof.
  induction l as [|m l IH]; simpl; intros S; [constructor|].
  inversion S as [|? ? S' F]; subst.
  destruct (p m); simpl; [|auto].
  constructor; [auto|].
  rewrite Forall_forall in *. intros t K. apply F.
  rewrite in_map_iff in *. destruct K as (x & <- & I).
  apply filter_In in I. exists x. tauto.
Qed.

Lemma sorted_snoc (R : Z -> Z -> Prop) l x :
  StronglySorted R l -> Forall (fun y => R y x) l ->
  StronglySorted R (l ++ [x]).
Proof.
  induction l as [|a l IH]; simpl; intros S F.
  - repeat constructor.
  - inversion S as [|? ? S' Fa]; subst. inversion F as [|? ? Ra F']; subst.
    constructor; [auto|].
    apply Forall_app. split; [assumption|]. constructor; [assumption|constructor].
Qed.

(** newest first becomes oldest first *)
Lemma rev_sorted l :
  StronglySorted Z.gt l -> StronglySorted Z.lt (rev l).
Proof.
  induction l as [|a l IH]; simpl; intros S; [constructor|].
  inversion S as [|? ? S' F]; subst.
  apply sorted_snoc; [auto|].
  rewrite Forall_forall in *. intros y K. apply in_rev in K.
  specialize (F y K). lia.
Qed.

Lemma sorted_lt_le l : StronglySorted Z.lt l -> StronglySorted Z.le l.
Proof.
  induction 1 as [|a l S IH F]; constructor; [assumption|].
  revert F. apply Forall_impl. intros; lia.
Qed.

Lemma history_sorted botID msgs :
  StronglySorted Z.gt (map Timestamp msgs) ->
  StronglySorted Z.lt
    (map cmTimestamp (reconcile botID (rev (recentMessagesOf (Ok msgs))))).
Proof.
  intros S. apply reconcile_sorted. rewrite map_rev. apply rev_sorted.
  simpl. now apply filter_sorted.
Qed.

Lemma history_timestamps_from botID msgs t :
  In t (map cmTimestamp (reconcile botID (rev (recentMessagesOf (Ok msgs))))) ->
  In t (map Timestamp msgs).
Proof.
  intros K. apply reconcile_timestamps_from in K.
  rewrite in_map_iff in *. destruct K as (m & <- & I).
  apply in_rev in I. simpl in I. apply filter_In in I. exists m. tauto.
Qed.

(** the window is the reconciled history, followed or not by the entry
    of the current message *)
Lemma window_shape w senderID roomID currentMessage :
  let history :=
    reconcile (GetBotUserID w) (rev (recentMessagesOf (roomContext w))) in
  let found :=
    existsb (sameAsCurrent senderID currentMessage (clockForContext w))
            history in
  fst (fst (getConversationContext w senderID roomID currentMessage))
  = if found then history
    else (history
            ++ [currentEntry senderID currentMessage (clockForContext w)])%list.
Proof.
  unfold getConversationContext. cbv zeta. simpl.
  destruct (existsb _ _); reflexivity.
Qed.

Lemma sameAsCurrent_iff senderID currentMessage now m :
  sameAsCurrent senderID currentMessage now m = true
  <-> cmContent m = currentMessage /\ cmSenderID m = senderID
      /\ Int64.sub now (cmTimestamp m) < 5000.
Proof.
  unfold sameAsCurrent.
  rewrite !andb_true_iff, !String.eqb_eq, Z.ltb_lt. tauto.
Qed.

Lemma Int64_sub_exact a b :
  Int64.min_signed <= a - b <= Int64.max_signed -> Int64.sub a b = a - b.
Proof.
  unfold Int64.sub, Int64.wrap, Int64.modulus, Int64.min_signed,
    Int64.max_signed.
  intros H. rewrite Z.mod_small; lia.
Qed.

End Reconciler.

(** C1 (as amended): for a fetch that is newest first with distinct
    timestamps, the window is the reconciled history, in strictly increasing
    timestamp order, followed or not by the entry of the current message;
    the whole window is in chronological order whenever the handler's clock
    is not behind the timestamps of the fetch. *)
Theorem context_window_chronological
    (w : chat.World) (senderID roomID currentMessage : string)
    (msgs : list domain.Message) :
  chat.roomContext w = chat.Ok msgs ->
  StronglySorted Z.gt (map domain.Timestamp msgs) ->
  let window :=
    fst (fst (chat.getConversationContext w senderID roomID currentMessage)) in
  let history :=
    chat.reconcile (chat.GetBotUserID w)
                   (rev (chat.recentMessagesOf (chat.Ok msgs))) in
  let current :=
    chat.currentEntry senderID currentMessage (chat.clockForContext w) in
  (window = history \/ window = (history ++ [current])%list)
  /\ StronglySorted Z.lt (map domain.cmTimestamp history)
  /\ ((forall m, In m msgs -> domain.Timestamp m <= chat.clockForContext w) ->
      StronglySorted Z.le (map domain.cmTimestamp window)).
Proof.
  intros Fetch Newest window history current.
  pose proof (history_sorted (chat.GetBotUserID w) msgs Newest) as HS.
  fold history in HS.
  assert (Shape : window = history \/ window = (history ++ [current])%list).
  { subst window. rewrite window_shape, Fetch. fold history.
    destruct (existsb _ history); [left|right]; reflexivity. }
  split; [exact Shape|]. split; [exact HS|].
  intros Clock. destruct Shape as [-> | ->].
  - now apply sorted_lt_le.
  - rewrite map_app. simpl. apply sorted_snoc; [now apply sorted_lt_le|].
    rewrite Forall_forall. intros t K.
    apply history_timestamps_from in K. rewrite in_map_iff in K.
    destruct K as (m & <- & I). now apply Clock.
Qed.

Lemma context_window_chronological_witness :
  StronglySorted Z.le
    (map domain.cmTimestamp
       (fst (fst (chat.getConversationContext
                    (samples.world
                       (chat.Ok [samples.said samples.alice "bye" 3000 false;
                                 samples.said "@henry:henhouse.im" "hello"
                                   2000 true;
                                 samples.said samples.alice "hi" 1000 false])
                       9000)
                    samples.alice samples.room "thanks")))).
Proof.
  refine (proj2 (proj2
    (context_window_chronological
       (samples.world
          (chat.Ok [samples.said samples.alice "bye" 3000 false;
                    samples.said "@henry:henhouse.im" "hello" 2000 true;
                    samples.said samples.alice "hi" 1000 false])
          9000)
       samples.alice samples.room "thanks"
       [samples.said samples.alice "bye" 3000 false;
        samples.said "@henry:henhouse.im" "hello" 2000 true;
        samples.said samples.alice "hi" 1000 false]
       eq_refl _)) _).
  - simpl. repeat constructor; lia.
  - simpl. intros m [<-|[<-|[<-|[]]]]; simpl; lia.
Defined.

(** C1, the claim as written fails: the entry of the current message is
    stamped with the handler's own clock, and when that clock is behind the
    newest event of the fetch the window ends out of order. *)
Lemma context_window_clock_behind :
  StronglySorted Z.gt
    (map domain.Timestamp [samples.said samples.alice "hello" 2000 false])
  /\ map domain.cmTimestamp
       (fst (fst (chat.getConversationContext
                    (samples.world
                       (chat.Ok [samples.said samples.alice "hello" 2000 false])
                       1000)
                    samples.alice samples.room "hi")))
     = [2000; 1000]
  /\ ~ StronglySorted Z.le [2000; 1000].
Proof.
  split; [repeat constructor|]. split; [reflexivity|].
  intros S. inversion S as [|? ? _ F]; subst.
  inversion F as [|? ? L _]; subst. lia.
Qed.

(** C8: when the history fetch fails, the window is exactly the user entry
    of the current message, and [getConversationContext] returns a nil
    error; it returns a nil error on every input. *)
Theorem fetch_failure_degrades
    (w : chat.World) (senderID roomID currentMessage : string) (e : error) :
  chat.roomContext w = chat.Err e ->
  fst (chat.getConversationContext w senderID roomID currentMessage)
  = ([{| domain.cmRole := domain.RoleUser;
         domain.cmContent := currentMessage;
         domain.cmTimestamp := chat.clockForContext w;
         domain.cmSenderID := senderID |}],
     None)
  /\ forall w' s' r' m',
       snd (fst (chat.getConversationContext w' s' r' m')) = None.
Proof.
  intros Fail. split; [|reflexivity].
  unfold chat.getConversationContext. cbv zeta. rewrite Fail. reflexivity.
Qed.

Lemma fetch_failure_degrades_witness :
  fst (chat.getConversationContext
         (samples.world (chat.Err "M_FORBIDDEN") 7000)
         samples.alice samples.room "hello")
  = ([{| domain.cmRole := domain.RoleUser; domain.cmContent := "hello";
         domain.cmTimestamp := 7000; domain.cmSenderID := samples.alice |}],
     None).
Proof.
  exact (proj1 (fetch_failure_degrades
                  (samples.world (chat.Err "M_FORBIDDEN") 7000)
                  samples.alice samples.room "hello" "M_FORBIDDEN" eq_refl)).
Defined.

(** C7 (as amended): the current message is left out exactly when some
    entry of the reconciled history, the last or an earlier one, has its
    content and its sender and a timestamp less than 5000 ms before the
    clock (in 64-bit arithmetic); otherwise it is appended as a user entry
    stamped with the clock.  In particular, when the newest fetched message
    is kept as it is by the reconciler, has the content and the sender of
    the current message and is less than 5000 ms old, it closes the window
    and the current message is not appended after it. *)
Theorem current_message_deduplicated
    (w : chat.World) (senderID roomID currentMessage : string) :
  let now := chat.clockForContext w in
  let history :=
    chat.reconcile (chat.GetBotUserID w)
                   (rev (chat.recentMessagesOf (chat.roomContext w))) in
  let window :=
    fst (fst (chat.getConversationContext w senderID roomID currentMessage)) in
  let same (m : domain.ConversationMessage) :=
    domain.cmContent m = currentMessage /\ domain.cmSenderID m = senderID
    /\ Int64.sub now (domain.cmTimestamp m) < 5000 in
  (Exists same history -> window = history)
  /\ (~ Exists same history ->
      window = (history ++ [chat.currentEntry senderID currentMessage now])%list)
  /\ (forall newest older cm,
        chat.roomContext w = chat.Ok (newest :: older) ->
        chat.reconcileOne (chat.GetBotUserID w) newest = Some cm ->
        domain.cmContent cm = currentMessage ->
        domain.SenderID newest = senderID ->
        0 <= now - domain.Timestamp newest < 5000 ->
        window = history /\ last history cm = cm
        /\ exists before, history = (before ++ [cm])%list).
Proof.
  intros now history window same.
  assert (Found : existsb (chat.sameAsCurrent senderID currentMessage now)
                          history = true <-> Exists same history).
  { rewrite existsb_exists, Exists_exists.
    split; intros (m & I & S); exists m; (split; [exact I|]);
      now apply sameAsCurrent_iff. }
  assert (Hit : Exists same history -> window = history).
  { intros E. apply Found in E. subst window. rewrite window_shape.
    fold history. fold now. now rewrite E. }
  split; [exact Hit|]. split.
  - intros N. subst window. rewrite window_shape. fold history. fold now.
    destruct (existsb _ history); [|reflexivity].
    exfalso. apply N, Found. reflexivity.
  - intros newest older cm Fetch Kept Content Sender Age.
    destruct (reconcileOne_keeps _ _ _ Kept) as (Ts & Sd & _ & NonEmpty).
    assert (Shape : history
                    = (chat.reconcile (chat.GetBotUserID w)
                         (rev (chat.recentMessagesOf (chat.Ok older)))
                       ++ [cm])%list).
    { subst history. rewrite Fetch. simpl.
      apply String.eqb_neq in NonEmpty. rewrite NonEmpty. simpl.
      rewrite reconcile_app. simpl. now rewrite Kept. }
    split; [|split].
    + apply Hit. rewrite Shape. apply Exists_app. right. constructor.
      unfold same. rewrite Ts, Sd. repeat split; [assumption..|].
      rewrite Int64_sub_exact;
        unfold Int64.min_signed, Int64.max_signed; lia.
    + rewrite Shape. apply last_last.
    + eexists. exact Shape.
Qed.

Lemma current_message_deduplicated_witness :
  fst (fst (chat.getConversationContext
              (samples.world
                 (chat.Ok [samples.said samples.alice "hi" 6000 false;
                           samples.said "@henry:henhouse.im" "hello" 2000 true])
                 6200)
              samples.alice samples.room "hi"))
  = chat.reconcile "@henry:henhouse.im"
      (rev (chat.recentMessagesOf
              (chat.Ok [samples.said samples.alice "hi" 6000 false;
                        samples.said "@henry:henhouse.im" "hello" 2000 true]))).
Proof.
  refine (proj1 (current_message_deduplicated
                   (samples.world
                      (chat.Ok [samples.said samples.alice "hi" 6000 false;
                                samples.said "@henry:henhouse.im" "hello"
                                  2000 true])
                      6200)
                   samples.alice samples.room "hi") _).
  simpl. apply Exists_cons_tl. apply Exists_cons_hd.
  simpl. repeat split.
Defined.

(** C7, the claim as written fails: the newest fetched entry is the bot's
    reply, not the current message, yet the current message is not appended,
    because an older entry of the same sender with the same text is less
    than 5000 ms old. *)
Lemma current_message_dropped_on_older_match :
  domain.Content (samples.said "@henry:henhouse.im" "ok" 2000 true) <> "hi"
  /\ fst (fst (chat.getConversationContext
                 (samples.world
                    (chat.Ok [samples.said "@henry:henhouse.im" "ok" 2000 true;
                              samples.said samples.alice "hi" 1000 false])
                    3000)
                 samples.alice samples.room "hi"))
     = [{| domain.cmRole := domain.RoleUser; domain.cmContent := "hi";
           domain.cmTimestamp := 1000; domain.cmSenderID := samples.alice |};
        {| domain.cmRole := domain.RoleAssistant; domain.cmContent := "ok";
           domain.cmTimestamp := 2000;
           domain.cmSenderID := "@henry:henhouse.im" |}]
  /\ ~ In (chat.currentEntry samples.alice "hi" 3000)
          (fst (fst (chat.getConversationContext
                       (samples.world
                          (chat.Ok [samples.said "@henry:henhouse.im" "ok"
                                      2000 true;
                                    samples.said samples.alice "hi" 1000 false])
                          3000)
                       samples.alice samples.room "hi"))).
Proof.
  split; [discriminate|]. split; [reflexivity|].
  simpl. intros [K|[K|[]]]; discriminate.
Qed.

(** the clean-up of mentions runs before the comparison: in a direct room
    the message "hello henry" comes back from the history as "hello" and is
    not recognised as the current message *)
Example mention_cleanup_before_comparison :
  map domain.cmContent
    (fst (fst (chat.getConversationContext
                 (samples.world
                    (chat.Ok [samples.said samples.alice "hello henry"
                                6000 false])
                    6200)
                 samples.alice samples.room "hello henry")))
  = ["hello"; "hello henry"].
Proof. reflexivity. Qed.

(** ** The end of a sync *)

Section SyncEnd.
Import matrix.

Lemma onEvent_no_sync c evt : ~ In ESync (snd (onEvent c evt)).
Proof.
  unfold onEvent.
  destruct (_ && _); [simpl; tauto|].
  destruct (_ && _); [simpl; tauto|].
  assert (NoJoin : forall c', ~ In ESync (inviteEffects c' evt)).
  { intros c'. unfold inviteEffects.
    destruct (EventType_eqb _ _); [|simpl; tauto].
    destruct (evMember evt) as [[| |]|]; try (simpl; tauto).
    destruct (String.eqb _ _); simpl; [|tauto].
    intros [K|[]]; discriminate. }
  destruct (negb _); [apply NoJoin|].
  destruct (String.eqb _ _); [apply NoJoin|].
  simpl. intros K. apply in_app_or in K. destruct K as [K|[K|[]]];
    [now apply NoJoin in K|discriminate].
Qed.

Lemma deliver_no_sync c evts : ~ In ESync (snd (deliver c evts)).
Proof.
  revert c. induction evts as [|evt evts IH]; intros c; simpl; [tauto|].
  pose proof (onEvent_no_sync c evt) as H1.
  destruct (onEvent c evt) as [c1 o1]. specialize (IH c1).
  destruct (deliver c1 evts) as [c2 o2]. simpl in *.
  intros K. apply in_app_or in K. tauto.
Qed.

Lemma deliver_fields c evts :
  SyncTokenFile (fst (deliver c evts)) = SyncTokenFile c
  /\ syncToken (fst (deliver c evts)) = syncToken c.
Proof.
  revert c. induction evts as [|evt evts IH]; intros c; simpl; [tauto|].
  assert (H1 : SyncTokenFile (fst (onEvent c evt)) = SyncTokenFile c
               /\ syncToken (fst (onEvent c evt)) = syncToken c).
  { unfold onEvent.
    destruct (_ && _); [simpl; tauto|].
    destruct (_ && _); [simpl; tauto|].
    assert (K : SyncTokenFile
                  (if 0 <? evTimestamp evt
                   then setLastProcessedTime c (evTimestamp evt) else c)
                = SyncTokenFile c
                /\ syncToken
                     (if 0 <? evTimestamp evt
                      then setLastProcessedTime c (evTimestamp evt) else c)
                   = syncToken c)
      by (destruct (0 <? evTimestamp evt); simpl; tauto).
    destruct (negb _); [exact K|]. destruct (String.eqb _ _); exact K. }
  destruct (onEvent c evt) as [c1 o1]. specialize (IH c1).
  destruct (deliver c1 evts) as [c2 o2]. simpl in *.
  destruct IH, H1. split; congruence.
Qed.

(** a loop that is not cancelled at its [select] enters [Sync()] *)
Lemma syncLoop_enters c r rest :
  ctxDone r = false ->
  exists tail, snd (fst (syncLoop c (r :: rest))) = ESync :: tail.
Proof.
  intros Live. simpl. rewrite Live.
  destruct (deliver c (delivered r)) as [c1 out].
  destruct (afterSync c1 r) as [[c2 post] stop].
  destruct stop; [eexists; reflexivity|].
  destruct (syncLoop c2 rest) as [[c3 later] st]. eexists; reflexivity.
Qed.

End SyncEnd.

(** C9 (as amended): in a turn of the loop that is not cancelled, with [out]
    what the callback did during the sync:
    - when [Sync()] ends with an error whose text contains
      "M_UNKNOWN_TOKEN", "Invalid access token" or "401", the token is
      cleared in memory, the empty string is written to the token file, and
      the loop ends there: [Sync()] was entered once, whatever turns would
      have followed;
    - when it ends with another error, the token of the store is kept and
      written to the file if it is not empty, the loop sleeps 5000 ms and
      goes on with the next turn, entering [Sync()] again unless cancelled;
    - when it ends without an error the same happens without the sleep. *)
Theorem sync_end_handling
    (c : matrix.Client) (r : matrix.SyncRun) (rest : list matrix.SyncRun) :
  matrix.ctxDone r = false ->
  let c1 := fst (matrix.deliver c (matrix.delivered r)) in
  let out := snd (matrix.deliver c (matrix.delivered r)) in
  let file := matrix.SyncTokenFile c in
  let kept :=
    if String.eqb (matrix.nextBatch r) EmptyString then c1
    else matrix.setSyncToken c1 (matrix.nextBatch r) in
  let saved :=
    if String.eqb (matrix.nextBatch r) EmptyString then []
    else [matrix.EWriteFile file (matrix.nextBatch r)] in
  ~ In matrix.ESync out
  /\ (forall msg,
        matrix.syncErr r = Some msg -> matrix.isAuthError msg = true ->
        matrix.syncLoop c (r :: rest)
        = (matrix.setSyncToken c1 EmptyString,
           (matrix.ESync :: out ++ [matrix.EWriteFile file EmptyString])%list,
           matrix.AuthFailed)
        /\ matrix.syncToken (fst (fst (matrix.syncLoop c (r :: rest))))
           = EmptyString)
  /\ (forall msg,
        matrix.syncErr r = Some msg -> matrix.isAuthError msg = false ->
        matrix.syncLoop c (r :: rest)
        = (fst (fst (matrix.syncLoop kept rest)),
           (matrix.ESync :: out ++ saved ++ [matrix.ESleep 5000]
              ++ snd (fst (matrix.syncLoop kept rest)))%list,
           snd (matrix.syncLoop kept rest)))
  /\ (matrix.syncErr r = None ->
      matrix.syncLoop c (r :: rest)
      = (fst (fst (matrix.syncLoop kept rest)),
         (matrix.ESync :: out ++ saved
            ++ snd (fst (matrix.syncLoop kept rest)))%list,
         snd (matrix.syncLoop kept rest)))
  /\ (forall next rest',
        rest = next :: rest' -> matrix.ctxDone next = false ->
        exists tail,
          snd (fst (matrix.syncLoop kept rest)) = matrix.ESync :: tail).
Proof.
  intros Live c1 out file kept saved.
  pose proof (deliver_fields c (matrix.delivered r)) as [File _].
  fold c1 in File.
  split; [apply deliver_no_sync|].
  assert (Unfold : matrix.syncLoop c (r :: rest)
                   = let '(c2, post, stop) := matrix.afterSync c1 r in
                     if stop
                     then (c2, (matrix.ESync :: out ++ post)%list,
                           matrix.AuthFailed)
                     else let '(c3, later, st) := matrix.syncLoop c2 rest in
                          (c3, (matrix.ESync :: out ++ post ++ later)%list, st)).
  { simpl. rewrite Live. subst c1 out.
    destruct (matrix.deliver c (matrix.delivered r)); reflexivity. }
  rewrite Unfold. unfold matrix.afterSync. rewrite File. fold file.
  split; [|split; [|split]].
  - intros msg E Auth. rewrite E, Auth. split; reflexivity.
  - intros msg E NotAuth. rewrite E, NotAuth. subst kept saved.
    destruct (String.eqb (matrix.nextBatch r) EmptyString); simpl;
      match goal with
      | |- context [matrix.syncLoop ?x rest] =>
          destruct (matrix.syncLoop x rest) as [[c3 later] st]
      end; reflexivity.
  - intros E. rewrite E. subst kept saved.
    destruct (String.eqb (matrix.nextBatch r) EmptyString); simpl;
      match goal with
      | |- context [matrix.syncLoop ?x rest] =>
          destruct (matrix.syncLoop x rest) as [[c3 later] st]
      end; reflexivity.
  - intros next rest' -> LiveNext. now apply syncLoop_enters.
Qed.

Lemma sync_end_handling_witness :
  matrix.syncLoop samples.henry
    [samples.authTurn; samples.turnWith []; samples.cleanTurn "s43"]
  = (matrix.setSyncToken
       (fst (matrix.deliver samples.henry
               (matrix.delivered samples.authTurn)))
       EmptyString,
     (matrix.ESync
        :: snd (matrix.deliver samples.henry
                  (matrix.delivered samples.authTurn))
        ++ [matrix.EWriteFile (matrix.SyncTokenFile samples.henry)
              EmptyString])%list,
     matrix.AuthFailed).
Proof.
  refine (proj1 (proj1 (proj2
    (sync_end_handling samples.henry samples.authTurn
       [samples.turnWith []; samples.cleanTurn "s43"] eq_refl))
    "M_UNKNOWN_TOKEN (HTTP 401): Invalid access token" eq_refl _)).
  vm_compute. reflexivity.
Defined.

(** the same run, evaluated: one sync, the message of the sync dispatched,
    the empty token written, and the loop over *)
Example auth_failure_run :
  matrix.syncLoop samples.henry
    [samples.authTurn; samples.turnWith []; samples.cleanTurn "s43"]
  = (matrix.setSyncToken
       (matrix.setLastProcessedTime samples.henry 4000) EmptyString,
     [matrix.ESync; matrix.EDispatch (samples.messageAt 4000);
      matrix.EWriteFile "sync_token.txt" EmptyString],
     matrix.AuthFailed).
Proof. reflexivity. Qed.

(** C9, the claim as written fails: after a sync that ends without an error
    the loop enters the next sync at once, without the 5 second wait; and
    after a network error with no token in the store nothing is written to
    the token file. *)
Lemma clean_end_restarts_without_wait :
  snd (fst (matrix.syncLoop samples.henry
              [samples.cleanTurn "s43"; samples.authTurn]))
  = [matrix.ESync; matrix.EWriteFile "sync_token.txt" "s43";
     matrix.ESync; matrix.EDispatch (samples.messageAt 4000);
     matrix.EWriteFile "sync_token.txt" EmptyString]
  /\ ~ In (matrix.ESleep 5000)
          (snd (fst (matrix.syncLoop samples.henry
                       [samples.cleanTurn "s43"; samples.authTurn])))
  /\ matrix.syncLoop samples.henry [samples.turnWith []]
     = (samples.henry, [matrix.ESync; matrix.ESleep 5000], matrix.Streaming).
Proof.
  split; [reflexivity|]. split; [|reflexivity].
  simpl. intros K. repeat (destruct K as [K|K]; [discriminate|]). exact K.
Qed.

(** the signatures are matched as written: the text "invalid token" is not
    one of them *)
Example auth_signatures :
  matrix.isAuthError "M_UNKNOWN_TOKEN" = true
  /\ matrix.isAuthError "Invalid access token" = true
  /\ matrix.isAuthError "status 401" = true
  /\ matrix.isAuthError "invalid token" = false
  /\ matrix.isAuthError "context deadline exceeded" = false.
Proof. repeat split; reflexivity. Qed.

(** ** The full mention and letter case *)

Section FullMention.

Lemma HasPrefix_iff s p :
  strings.HasPrefix s p = true <-> exists r, s = p ++ r.
Proof.
  revert s. induction p as [|a p IH]; intros s; simpl.
  - split; [intros _; now exists s|reflexivity].
  - destruct s as [|b s].
    + split; [discriminate|intros (r & K); discriminate].
    + rewrite andb_true_iff, Ascii.eqb_eq, IH. split.
      * intros (-> & r & ->). now exists r.
      * intros (r & K). injection K as -> ->. split; [reflexivity|now exists r].
Qed.

Lemma Contains_iff s t :
  strings.Contains s t = true <-> exists a b, s = a ++ t ++ b.
Proof.
  induction s as [|c s IH]; simpl.
  - rewrite orb_false_r, HasPrefix_iff. split.
    + intros (r & K). exists EmptyString, r. exact K.
    + intros ([|x a] & b & K); [now exists b|discriminate].
  - rewrite orb_true_iff, IH, HasPrefix_iff. split.
    + intros [(r & K)|(a & b & ->)].
      * exists EmptyString, r. exact K.
      * exists (String c a), b. reflexivity.
    + intros ([|x a] & b & K).
      * left. now exists b.
      * right. injection K as -> ->. now exists a, b.
Qed.

Lemma ToLower_app a b :
  strings.ToLower (a ++ b) = strings.ToLower a ++ strings.ToLower b.
Proof. induction a as [|c a IH]; simpl; [reflexivity|now rewrite IH]. Qed.

(** a piece of the lower-cased text is the lower-casing of a piece of the
    text *)
Lemma ToLower_split s a b :
  strings.ToLower s = a ++ b ->
  exists a' b', s = a' ++ b' /\ strings.ToLower a' = a
                /\ strings.ToLower b' = b.
Proof.
  revert s. induction a as [|c a IH]; intros s E; simpl in E.
  - exists EmptyString, s. repeat split. exact E.
  - destruct s as [|d s]; [discriminate|]. simpl in E. injection E as Ec Es.
    destruct (IH s Es) as (a' & b' & -> & <- & <-).
    exists (String d a'), b'. simpl. rewrite Ec. repeat split.
Qed.

Lemma addressedBy_full_mention c content :
  matrix.addressedBy c content domain.GroupRoom = matrix.ByFullMention
  <-> strings.Contains (strings.ToLower content)
        ("@" ++ matrix.fullUsernameOf (matrix.userID c)) = true.
Proof.
  unfold matrix.addressedBy. cbv zeta. simpl domain.RoomType_eqb. cbv iota.
  destruct (strings.Contains (strings.ToLower content) _);
    [tauto|].
  split; [|discriminate].
  destruct (_ && _); [discriminate|].
  destruct (strings.Contains _ _); discriminate.
Qed.

End FullMention.

(** C4 (as amended): in a group room the full-identity rule looks for the
    mention "@name:domain", as configured, in the lower-cased content.  For
    an identity without upper-case letters it therefore fires exactly when
    the content contains the mention in some letter case, the original one
    or any other.  (Stated for ASCII text, on which the byte-wise [ToLower]
    is Go's.) *)
Theorem full_mention_any_letter_case (c : matrix.Client) (content : string) :
  let fullMention := "@" ++ matrix.fullUsernameOf (matrix.userID c) in
  strings.isASCII content = true ->
  strings.isASCII fullMention = true ->
  strings.ToLower fullMention = fullMention ->
  (matrix.addressedBy c content domain.GroupRoom = matrix.ByFullMention
   <-> exists token,
         strings.ToLower token = fullMention
         /\ strings.Contains content token = true)
  /\ (matrix.addressedBy c content domain.GroupRoom = matrix.ByFullMention ->
      matrix.IsAddressedToBot c content domain.GroupRoom = true).
Proof.
  intros fullMention _ _ Lower. split.
  - rewrite addressedBy_full_mention. fold fullMention.
    rewrite Contains_iff. split.
    + intros (a & b & E).
      apply ToLower_split in E. destruct E as (a' & rest & -> & _ & E).
      apply ToLower_split in E. destruct E as (token & b' & -> & Tok & _).
      exists token. split; [exact Tok|].
      apply Contains_iff. now exists a', b'.
    + intros (token & Tok & In).
      apply Contains_iff in In. destruct In as (a & b & ->).
      exists (strings.ToLower a), (strings.ToLower b).
      now rewrite !ToLower_app, Tok.
  - intros By. rewrite IsAddressedToBot_addressedBy, By. reflexivity.
Qed.

Lemma full_mention_any_letter_case_witness :
  matrix.addressedBy samples.henry "hey @Henry:HenHouse.im, lunch?"
    domain.GroupRoom = matrix.ByFullMention
  <-> exists token,
        strings.ToLower token
        = "@" ++ matrix.fullUsernameOf (matrix.userID samples.henry)
        /\ strings.Contains "hey @Henry:HenHouse.im, lunch?" token = true.
Proof.
  refine (proj1 (full_mention_any_letter_case samples.henry
                   "hey @Henry:HenHouse.im, lunch?" _ _ _));
    vm_compute; reflexivity.
Defined.

(** C4, the claim as written fails: the content carries the mention in
    upper case only, not in the casing of the identity, and the
    full-identity rule is the one that answers [true]. *)
Lemma full_mention_upper_case_matches :
  strings.Contains "hey @HENRY:HENHOUSE.IM"
    ("@" ++ matrix.fullUsernameOf (matrix.userID samples.henry)) = false
  /\ matrix.addressedBy samples.henry "hey @HENRY:HENHOUSE.IM"
       domain.GroupRoom = matrix.ByFullMention
  /\ matrix.IsAddressedToBot samples.henry "hey @HENRY:HENHOUSE.IM"
       domain.GroupRoom = true.
Proof. repeat split; reflexivity. Qed.

(* ================================================================== *)
(** * Further properties of the session loop *)

Section SessionLoopMore.
Import matrix observe.

Lemma onEvent_userID c evt : userID (fst (onEvent c evt)) = userID c.
Proof.
  unfold onEvent.
  destruct (_ && _); [reflexivity|].
  destruct (_ && _); [reflexivity|].
  assert (K : userID (if 0 <? evTimestamp evt
                      then setLastProcessedTime c (evTimestamp evt) else c)
              = userID c)
    by (destruct (0 <? evTimestamp evt); reflexivity).
  destruct (negb _); [exact K|]. destruct (String.eqb _ _); exact K.
Qed.

Lemma deliver_userID c evts : userID (fst (deliver c evts)) = userID c.
Proof.
  revert c. induction evts as [|evt evts IH]; intros c; simpl; [reflexivity|].
  pose proof (onEvent_userID c evt) as H1.
  destruct (onEvent c evt) as [c1 o1]. specialize (IH c1).
  destruct (deliver c1 evts) as [c2 o2]. simpl in *. congruence.
Qed.

Lemma afterSync_userID c r :
  userID (fst (fst (afterSync c r))) = userID c.
Proof.
  unfold afterSync.
  destruct (match syncErr r with Some msg => isAuthError msg | None => false end);
    [reflexivity|].
  destruct (negb _); destruct (syncErr r); reflexivity.
Qed.

(** what one event can cause: a join for an invitation addressed to the
    bot, a dispatch for a message of somebody else *)
Lemma onEvent_effects c evt x :
  In x (snd (onEvent c evt)) ->
  (x = EJoinRoom (evRoomID evt)
   /\ evType evt = StateMember /\ evMember evt = Some MembershipInvite
   /\ GetStateKey evt = userID c)
  \/ (x = EDispatch evt
      /\ evType evt = EventMessage /\ evSender evt <> userID c).
Proof.
  unfold onEvent.
  destruct (_ && _); [simpl; tauto|].
  destruct (_ && _); [simpl; tauto|].
  set (c1 := if 0 <? evTimestamp evt
             then setLastProcessedTime c (evTimestamp evt) else c).
  assert (U : userID c1 = userID c)
    by (subst c1; destruct (0 <? evTimestamp evt); reflexivity).
  assert (J : In x (inviteEffects c1 evt) ->
              x = EJoinRoom (evRoomID evt)
              /\ evType evt = StateMember
              /\ evMember evt = Some MembershipInvite
              /\ GetStateKey evt = userID c).
  { unfold inviteEffects.
    destruct (evType evt) eqn:T; simpl; try tauto.
    destruct (evMember evt) as [[| |]|]; simpl; try tauto.
    destruct (String.eqb _ _) eqn:K; simpl; [|tauto].
    apply String.eqb_eq in K. rewrite U in K.
    intros [<-|[]]. tauto. }
  destruct (evType evt) eqn:T; simpl.
  - intros K. left. apply J. exact K.
  - destruct (String.eqb (evSender evt) (userID c1)) eqn:S; simpl.
    + intros K. left. apply J. exact K.
    + intros K. apply in_app_or in K. destruct K as [K|[<-|[]]].
      * left. apply J. exact K.
      * right. apply String.eqb_neq in S. rewrite U in S. tauto.
  - intros K. left. apply J. exact K.
Qed.

Lemma deliver_effects c evts x :
  In x (snd (deliver c evts)) ->
  exists evt, In evt evts /\
    ((x = EJoinRoom (evRoomID evt)
      /\ evType evt = StateMember /\ evMember evt = Some MembershipInvite
      /\ GetStateKey evt = userID c)
     \/ (x = EDispatch evt
         /\ evType evt = EventMessage /\ evSender evt <> userID c)).
Proof.
  revert c. induction evts as [|evt evts IH]; intros c; simpl; [tauto|].
  pose proof (onEvent_effects c evt x) as H1.
  pose proof (onEvent_userID c evt) as U.
  destruct (onEvent c evt) as [c1 o1]. specialize (IH c1).
  destruct (deliver c1 evts) as [c2 o2]. simpl in *.
  intros K. apply in_app_or in K. destruct K as [K|K].
  - exists evt. split; [now left|]. now apply H1.
  - destruct (IH K) as (e & I & D). exists e. split; [now right|].
    rewrite U in D. exact D.
Qed.

(** every join and every dispatch of the loop comes from an event of one of
    its syncs *)
Lemma syncLoop_effects c script x :
  In x (snd (fst (syncLoop c script))) ->
  (exists r evt, In r script /\ In evt (delivered r) /\
     ((x = EJoinRoom (evRoomID evt)
       /\ evType evt = StateMember /\ evMember evt = Some MembershipInvite
       /\ GetStateKey evt = userID c)
      \/ (x = EDispatch evt
          /\ evType evt = EventMessage /\ evSender evt <> userID c)))
  \/ x = ESync \/ (exists f d, x = EWriteFile f d) \/ x = ESleep 5000.
Proof.
  revert c. induction script as [|r rest IH]; intros c; simpl; [tauto|].
  destruct (ctxDone r); [simpl; tauto|].
  pose proof (deliver_effects c (delivered r) x) as D.
  pose proof (deliver_userID c (delivered r)) as U1.
  destruct (deliver c (delivered r)) as [c1 out]. simpl in D, U1.
  pose proof (afterSync_userID c1 r) as U2.
  assert (P : In x (snd (fst (afterSync c1 r))) ->
              (exists f d, x = EWriteFile f d) \/ x = ESleep 5000).
  { unfold afterSync.
    destruct (match syncErr r with Some msg => isAuthError msg | None => false end).
    - simpl. intros [<-|[]]. left. eauto.
    - destruct (negb _); destruct (syncErr r); simpl;
        intuition (subst; eauto). }
  destruct (afterSync c1 r) as [[c2 post] stop]. simpl in U2, P.
  assert (Here : In x (ESync :: out ++ post) ->
    (exists r0 evt, (r = r0 \/ In r0 rest) /\ In evt (delivered r0) /\
       ((x = EJoinRoom (evRoomID evt)
         /\ evType evt = StateMember /\ evMember evt = Some MembershipInvite
         /\ GetStateKey evt = userID c)
        \/ (x = EDispatch evt
            /\ evType evt = EventMessage /\ evSender evt <> userID c)))
    \/ x = ESync \/ (exists f d, x = EWriteFile f d) \/ x = ESleep 5000).
  { intros [<-|K]; [tauto|]. apply in_app_or in K. destruct K as [K|K].
    - left. destruct (D K) as (evt & I & Q). exists r, evt. tauto.
    - right. right. now apply P. }
  destruct stop; [exact Here|].
  specialize (IH c2). destruct (syncLoop c2 rest) as [[c3 later] st].
  simpl in *. intros [<-|K]; [tauto|].
  rewrite app_assoc in K. apply in_app_or in K. destruct K as [K|K].
  - apply Here. now right.
  - destruct (IH K) as [(r0 & evt & I & Q & R)|R]; [|tauto].
    left. exists r0, evt. rewrite U2, U1 in R. tauto.
Qed.

End SessionLoopMore.

(** X1: whatever the syncs deliver, an event is handed to the message
    handler only if it is a message event, was sent by somebody other than
    the bot, and was delivered by one of the syncs. *)
Theorem dispatched_events_are_foreign_messages
    (c : matrix.Client) (script : list matrix.SyncRun) (e : matrix.Event) :
  In (matrix.EDispatch e) (snd (fst (matrix.syncLoop c script))) ->
  matrix.evType e = matrix.EventMessage
  /\ matrix.evSender e <> matrix.userID c
  /\ exists r, In r script /\ In e (matrix.delivered r).
Proof.
  intros K. apply syncLoop_effects in K.
  destruct K as [(r & evt & I & D & [(Q & _)|(Q & T & S)])
                |[Q|[(f & d & Q)|Q]]]; try discriminate.
  injection Q as ->. repeat split; [assumption..|]. now exists r.
Qed.

Lemma dispatched_events_are_foreign_messages_witness :
  matrix.evType (samples.messageAt 4000) = matrix.EventMessage
  /\ matrix.evSender (samples.messageAt 4000) <> matrix.userID samples.henry
  /\ exists r, In r [samples.cleanTurn "s43"; samples.authTurn]
               /\ In (samples.messageAt 4000) (matrix.delivered r).
Proof.
  apply (dispatched_events_are_foreign_messages samples.henry
           [samples.cleanTurn "s43"; samples.authTurn]
           (samples.messageAt 4000)).
  vm_compute. tauto.
Defined.

(** X2: the bot joins a room only in answer to a delivered membership event
    that is an invitation whose state key is the bot's own user id, and the
    room joined is the room of that event. *)
Theorem joins_answer_invitations
    (c : matrix.Client) (script : list matrix.SyncRun) (room : string) :
  In (matrix.EJoinRoom room) (snd (fst (matrix.syncLoop c script))) ->
  exists r evt,
    In r script /\ In evt (matrix.delivered r)
    /\ matrix.evRoomID evt = room
    /\ matrix.evType evt = matrix.StateMember
    /\ matrix.evMember evt = Some matrix.MembershipInvite
    /\ matrix.GetStateKey evt = matrix.userID c.
Proof.
  intros K. apply syncLoop_effects in K.
  destruct K as [(r & evt & I & D & [(Q & T & M & S)|(Q & _)])
                |[Q|[(f & d & Q)|Q]]]; try discriminate.
  injection Q as ->. exists r, evt. tauto.
Qed.

Lemma joins_answer_invitations_witness :
  exists r evt,
    In r [samples.turnWith [fixtures.inviteTo "!new:henhouse.im" 1200]]
    /\ In evt (matrix.delivered r)
    /\ matrix.evRoomID evt = "!new:henhouse.im"
    /\ matrix.evType evt = matrix.StateMember
    /\ matrix.evMember evt = Some matrix.MembershipInvite
    /\ matrix.GetStateKey evt = matrix.userID samples.henry.
Proof.
  apply (joins_answer_invitations samples.henry
           [samples.turnWith [fixtures.inviteTo "!new:henhouse.im" 1200]]
           "!new:henhouse.im").
  vm_compute. tauto.
Defined.

Section SessionLoopStamps.
Import matrix observe.

Lemma dispatchedStamps_app o1 o2 :
  dispatchedStamps (o1 ++ o2) = (dispatchedStamps o1 ++ dispatchedStamps o2)%list.
Proof.
  induction o1 as [|x o1 IH]; simpl; [reflexivity|].
  destruct x; try exact IH.
  destruct (0 <? evTimestamp evt); simpl; now rewrite IH.
Qed.

Lemma stampsBetween_nil lo hi : lo <= hi -> stampsBetween lo hi [].
Proof. intros L. repeat split; [exact L|constructor|constructor]. Qed.

Lemma stampsBetween_app lo mid hi s1 s2 :
  stampsBetween lo mid s1 -> stampsBetween mid hi s2 ->
  stampsBetween lo hi (s1 ++ s2).
Proof.
  intros (L1 & S1 & F1) (L2 & S2 & F2). repeat split; [lia| |].
  - induction s1 as [|a s1 IH]; simpl; [exact S2|].
    inversion S1 as [|? ? S1' Fa]; subst. inversion F1 as [|? ? Ra F1']; subst.
    constructor; [now apply IH|].
    apply Forall_app. split; [exact Fa|].
    revert F2. apply Forall_impl. intros; lia.
  - apply Forall_app. split.
    + revert F1. apply Forall_impl. intros; lia.
    + revert F2. apply Forall_impl. intros; lia.
Qed.

Lemma inviteEffects_stamps c evt : dispatchedStamps (inviteEffects c evt) = [].
Proof.
  unfold inviteEffects. destruct (EventType_eqb _ _); [|reflexivity].
  destruct (evMember evt) as [[| |]|]; try reflexivity.
  destruct (String.eqb _ _); reflexivity.
Qed.

Lemma onEvent_stamps c evt :
  stampsBetween (lastProcessedTime c)
                (lastProcessedTime (fst (onEvent c evt)))
                (dispatchedStamps (snd (onEvent c evt))).
Proof.
  unfold onEvent.
  destruct ((0 <? evTimestamp evt) && (evTimestamp evt <? startupTime c));
    [apply stampsBetween_nil; simpl; lia|].
  destruct ((0 <? evTimestamp evt)
            && (evTimestamp evt <=? lastProcessedTime c)) eqn:Seen;
    [apply stampsBetween_nil; simpl; lia|].
  set (c1 := if 0 <? evTimestamp evt
             then setLastProcessedTime c (evTimestamp evt) else c).
  assert (W : lastProcessedTime c <= lastProcessedTime c1
              /\ (0 < evTimestamp evt ->
                  lastProcessedTime c < evTimestamp evt
                  /\ lastProcessedTime c1 = evTimestamp evt)).
  { subst c1. destruct (0 <? evTimestamp evt) eqn:Pos; simpl in *.
    - apply Z.leb_gt in Seen. lia.
    - apply Z.ltb_ge in Pos. lia. }
  destruct W as (W1 & W2).
  destruct (negb (EventType_eqb (evType evt) EventMessage)); simpl;
    [rewrite inviteEffects_stamps; now apply stampsBetween_nil|].
  destruct (String.eqb _ _); simpl;
    [rewrite inviteEffects_stamps; now apply stampsBetween_nil|].
  rewrite dispatchedStamps_app, inviteEffects_stamps. simpl.
  destruct (0 <? evTimestamp evt) eqn:Pos;
    [|now apply stampsBetween_nil].
  apply Z.ltb_lt in Pos. destruct (W2 Pos) as (W3 & W4).
  repeat split; [exact W1|repeat constructor|].
  constructor; [lia|constructor].
Qed.

Lemma deliver_stamps c evts :
  stampsBetween (lastProcessedTime c)
                (lastProcessedTime (fst (deliver c evts)))
                (dispatchedStamps (snd (deliver c evts))).
Proof.
  revert c. induction evts as [|evt evts IH]; intros c; simpl;
    [apply stampsBetween_nil; lia|].
  pose proof (onEvent_stamps c evt) as H1.
  destruct (onEvent c evt) as [c1 o1]. specialize (IH c1).
  destruct (deliver c1 evts) as [c2 o2]. simpl in *.
  rewrite dispatchedStamps_app. now apply stampsBetween_app with (lastProcessedTime c1).
Qed.

Lemma afterSync_stamps c r :
  dispatchedStamps (snd (fst (afterSync c r))) = [].
Proof.
  unfold afterSync.
  destruct (match syncErr r with Some msg => isAuthError msg | None => false end);
    [reflexivity|].
  destruct (negb _); destruct (syncErr r); reflexivity.
Qed.

Lemma syncLoop_stamps c script :
  stampsBetween (lastProcessedTime c)
                (lastProcessedTime (fst (fst (syncLoop c script))))
                (dispatchedStamps (snd (fst (syncLoop c script)))).
Proof.
  revert c. induction script as [|r rest IH]; intros c; simpl;
    [apply stampsBetween_nil; lia|].
  destruct (ctxDone r); [apply stampsBetween_nil; simpl; lia|].
  pose proof (deliver_stamps c (delivered r)) as D.
  destruct (deliver c (delivered r)) as [c1 out]. simpl in D.
  pose proof (afterSync_stamps c1 r) as A.
  pose proof (afterSync_fields c1 r) as (_ & F & _).
  destruct (afterSync c1 r) as [[c2 post] stop]. simpl in A, F.
  destruct stop; simpl.
  - rewrite dispatchedStamps_app, A, app_nil_r, F. exact D.
  - specialize (IH c2). destruct (syncLoop c2 rest) as [[c3 later] st].
    simpl in *. rewrite !dispatchedStamps_app, A. simpl.
    apply stampsBetween_app with (lastProcessedTime c1); [exact D|].
    rewrite <- F. exact IH.
Qed.

End SessionLoopStamps.

(** X3: among the events handed to the handler, those that carry a
    timestamp are handed over in strictly increasing timestamp order, all
    later than the watermark the loop started with: an event whose
    timestamp equals that of an event already handed over is dropped. *)
Theorem dispatched_timestamps_strictly_increase
    (c : matrix.Client) (script : list matrix.SyncRun) :
  StronglySorted Z.lt
    (observe.dispatchedStamps (snd (fst (matrix.syncLoop c script))))
  /\ Forall (fun t => matrix.lastProcessedTime c < t)
       (observe.dispatchedStamps (snd (fst (matrix.syncLoop c script)))).
Proof.
  destruct (syncLoop_stamps c script) as (_ & S & F).
  split; [exact S|]. revert F. apply Forall_impl. intros; lia.
Qed.

(** two messages of the same millisecond: only the first reaches the
    handler *)
Example same_millisecond_dropped :
  snd (matrix.deliver samples.henry
         [samples.messageAt 2000;
          {| matrix.evType := matrix.EventMessage;
             matrix.evSender := "@bob:henhouse.im";
             matrix.evRoomID := samples.room; matrix.evTimestamp := 2000;
             matrix.evStateKey := None; matrix.evMember := None |}])
  = [matrix.EDispatch (samples.messageAt 2000)].
Proof. reflexivity. Qed.

Section TokenFile.
Import matrix observe.

Lemma fileAfter_app before o1 o2 :
  fileAfter before (o1 ++ o2) = fileAfter (fileAfter before o1) o2.
Proof.
  revert before. induction o1 as [|x o1 IH]; intros before; simpl;
    [reflexivity|].
  destruct x; apply IH.
Qed.

Lemma fileAfter_onEvent before c evt :
  fileAfter before (snd (onEvent c evt)) = before.
Proof.
  unfold onEvent.
  destruct (_ && _); [reflexivity|]. destruct (_ && _); [reflexivity|].
  assert (J : forall c', fileAfter before (inviteEffects c' evt) = before).
  { intros c'. unfold inviteEffects. destruct (EventType_eqb _ _); [|reflexivity].
    destruct (evMember evt) as [[| |]|]; try reflexivity.
    destruct (String.eqb _ _); reflexivity. }
  destruct (negb _); [apply J|]. destruct (String.eqb _ _); [apply J|].
  simpl. rewrite fileAfter_app, J. reflexivity.
Qed.

Lemma fileAfter_deliver before c evts :
  fileAfter before (snd (deliver c evts)) = before.
Proof.
  revert c. induction evts as [|evt evts IH]; intros c; simpl; [reflexivity|].
  pose proof (fileAfter_onEvent before c evt) as H1.
  destruct (onEvent c evt) as [c1 o1]. specialize (IH c1).
  destruct (deliver c1 evts) as [c2 o2]. simpl in *.
  now rewrite fileAfter_app, H1.
Qed.

(** after the code that follows a sync the file holds the token in memory,
    if it did before; the token is empty after an authentication failure
    and is otherwise not made empty *)
Lemma afterSync_token c r :
  let '(c', post, stop) := afterSync c r in
  fileAfter (syncToken c) post = syncToken c'
  /\ (stop = true -> syncToken c' = EmptyString)
  /\ (stop = false -> syncToken c <> EmptyString ->
      syncToken c' <> EmptyString)
  /\ forall f d, In (EWriteFile f d) post -> f = SyncTokenFile c.
Proof.
  unfold afterSync.
  destruct (match syncErr r with Some msg => isAuthError msg | None => false end).
  - simpl. repeat split; try discriminate.
    intros f d [K|[]]. now injection K as <- _.
  - destruct (String.eqb (nextBatch r) EmptyString) eqn:E; simpl;
      destruct (syncErr r); simpl; repeat split; try discriminate; try tauto;
      try (intros _ _; now apply String.eqb_neq in E);
      intros f d K; repeat (destruct K as [K|K]; try discriminate; try tauto);
      now injection K as <- _.
Qed.

Lemma syncLoop_token c script :
  let '(c', out, st) := syncLoop c script in
  fileAfter (syncToken c) out = syncToken c'
  /\ (st = AuthFailed -> syncToken c' = EmptyString)
  /\ (st <> AuthFailed -> syncToken c <> EmptyString ->
      syncToken c' <> EmptyString)
  /\ forall f d, In (EWriteFile f d) out -> f = SyncTokenFile c.
Proof.
  revert c. induction script as [|r rest IH]; intros c; simpl.
  - repeat split; try discriminate; try tauto.
  - destruct (ctxDone r).
    { repeat split; try discriminate; try tauto; try (intros f d []). }
    pose proof (deliver_fields c (delivered r)) as (F1 & T1).
    pose proof (fileAfter_deliver (syncToken c) c (delivered r)) as D.
    pose proof (deliver_effects c (delivered r)) as E.
    destruct (deliver c (delivered r)) as [c1 out]. simpl in F1, T1, D, E.
    assert (NoWrite : forall f d, ~ In (EWriteFile f d) out).
    { intros f d K. destruct (E _ K) as (evt & _ & [(Q & _)|(Q & _)]);
        discriminate. }
    pose proof (afterSync_token c1 r) as A.
    pose proof (afterSync_fields c1 r) as (_ & _ & F2).
    destruct (afterSync c1 r) as [[c2 post] stop]. simpl in F2.
    destruct A as (A1 & A2 & A3 & A4).
    destruct stop.
    + split; [|split; [|split]].
      * simpl. rewrite fileAfter_app, D, <- T1. exact A1.
      * intros _. now apply A2.
      * intros N. now contradiction N.
      * intros f d [K|K]; [discriminate|]. apply in_app_or in K.
        destruct K as [K|K]; [now apply NoWrite in K|].
        rewrite <- F1. now apply A4 in K.
    + specialize (IH c2). destruct (syncLoop c2 rest) as [[c3 later] st].
      destruct IH as (I1 & I2 & I3 & I4).
      split; [|split; [|split]].
      * simpl. rewrite !fileAfter_app, D, <- T1, A1. exact I1.
      * exact I2.
      * intros N S. apply I3; [exact N|]. apply A3; [reflexivity|congruence].
      * intros f d [K|K]; [discriminate|]. apply in_app_or in K.
        destruct K as [K|K]; [now apply NoWrite in K|].
        apply in_app_or in K. destruct K as [K|K].
        -- rewrite <- F1. now apply A4 in K.
        -- rewrite <- F1, <- F2. now apply I4 in K.
Qed.

End TokenFile.

(** X4: the loop keeps the token file in step with the token in memory: if
    the file holds the token of the client when the loop starts, it holds
    the token of the client when the loop stops or pauses (every write
    taken as successful), and the only file written is the configured token
    file. *)
Theorem token_file_follows_memory
    (c : matrix.Client) (script : list matrix.SyncRun) :
  observe.fileAfter (matrix.syncToken c)
    (snd (fst (matrix.syncLoop c script)))
  = matrix.syncToken (fst (fst (matrix.syncLoop c script)))
  /\ forall f d,
       In (matrix.EWriteFile f d) (snd (fst (matrix.syncLoop c script))) ->
       f = matrix.SyncTokenFile c.
Proof.
  pose proof (syncLoop_token c script) as H.
  destruct (matrix.syncLoop c script) as [[c' out] st]. simpl. tauto.
Qed.

Lemma token_file_follows_memory_witness :
  observe.fileAfter (matrix.syncToken samples.henry)
    (snd (fst (matrix.syncLoop samples.henry
                 [samples.cleanTurn "s43"; samples.turnWith []])))
  = "s43"
  /\ forall f d,
       In (matrix.EWriteFile f d)
          (snd (fst (matrix.syncLoop samples.henry
                       [samples.cleanTurn "s43"; samples.turnWith []]))) ->
       f = "sync_token.txt".
Proof.
  exact (token_file_follows_memory samples.henry
           [samples.cleanTurn "s43"; samples.turnWith []]).
Defined.



(* ================================================================== *)
(** * Further properties of the mention detector *)

Section StringFacts.

Lemma str_app_assoc (a b c : string) : (a ++ b) ++ c = a ++ b ++ c.
Proof. induction a as [|x a IH]; simpl; [reflexivity|now rewrite IH]. Qed.

Lemma str_app_nil_r (a : string) : a ++ EmptyString = a.
Proof. induction a as [|x a IH]; simpl; [reflexivity|now rewrite IH]. Qed.

Lemma countByte_app c a b :
  strings.countByte c (a ++ b)
  = (strings.countByte c a + strings.countByte c b)%nat.
Proof. induction a as [|x a IH]; simpl; [reflexivity|rewrite IH; lia]. Qed.

(** a text that contains [t] contains every piece of [t] *)
Lemma Contains_piece s a t b :
  strings.Contains s (a ++ t ++ b) = true -> strings.Contains s t = true.
Proof.
  rewrite !Contains_iff. intros (x & y & ->).
  exists (x ++ a), (b ++ y). now rewrite !str_app_assoc.
Qed.

Lemma lowerByte_idempotent c :
  strings.lowerByte (strings.lowerByte c) = strings.lowerByte c.
Proof. destruct c as [[] [] [] [] [] [] [] []]; reflexivity. Qed.

Lemma ToLower_idempotent s :
  strings.ToLower (strings.ToLower s) = strings.ToLower s.
Proof.
  induction s as [|c s IH]; simpl; [reflexivity|].
  now rewrite lowerByte_idempotent, IH.
Qed.

(** where [Index] finds the first colon *)
Lemma indexFrom_colon s i :
  (strings.indexFrom i s ":" = -1 /\ strings.countByte ":" s = 0%nat)
  \/ exists n rest,
       strings.indexFrom i s ":" = i + Z.of_nat n
       /\ strings.countByte ":" (strings.upto n s) = 0%nat
       /\ s = strings.upto n s ++ ":" ++ rest.
Proof.
  revert i. induction s as [|c s IH]; intros i; simpl.
  - left. split; reflexivity.
  - rewrite andb_true_r. destruct (Ascii.eqb c ":") eqn:E.
    + right. apply Ascii.eqb_eq in E. subst c.
      exists 0%nat, s. simpl. repeat split. lia.
    + destruct (IH (i + 1)) as [(I & C)|(n & rest & I & C & Cut)].
      * left. split; [exact I|]. simpl. exact C.
      * right. exists (S n), rest. simpl. rewrite E. simpl.
        repeat split; [lia|exact C|f_equal; exact Cut].
Qed.

(** the local part is what comes before the first colon, or everything *)
Lemma localpartOf_cases s :
  strings.countByte ":" (matrix.localpartOf s) = 0%nat
  /\ (matrix.localpartOf s = s
      \/ exists rest, s = matrix.localpartOf s ++ ":" ++ rest).
Proof.
  unfold matrix.localpartOf, strings.Index. cbv zeta.
  destruct (indexFrom_colon s 0) as [(I & C)|(n & rest & I & C & S)];
    rewrite I.
  - simpl. tauto.
  - replace (0 <=? 0 + Z.of_nat n) with true by (symmetry; apply Z.leb_le; lia).
    replace (Z.to_nat (0 + Z.of_nat n)) with n by lia.
    split; [exact C|]. right. now exists rest.
Qed.

End StringFacts.

(** X6: the local name that the mention detector and the login look for
    never contains a colon, and the identity is that local name alone or
    that local name, a colon and a rest. *)
Theorem localpart_is_before_first_colon (fullUsername : string) :
  strings.countByte ":" (matrix.localpartOf fullUsername) = 0%nat
  /\ (fullUsername = matrix.localpartOf fullUsername
      \/ exists domainPart,
           fullUsername
           = matrix.localpartOf fullUsername ++ ":" ++ domainPart).
Proof.
  destruct (localpartOf_cases fullUsername) as (C & [E|E]).
  - split; [exact C|]. left. now symmetry.
  - split; [exact C|]. now right.
Qed.

(** X7: in a group room a text whose lower-casing contains neither the
    lower-cased local name nor the full mention is not addressed to the
    bot. *)
Theorem unmentioned_text_not_addressed (c : matrix.Client) (content : string) :
  let fullUsername := matrix.fullUsernameOf (matrix.userID c) in
  strings.Contains (strings.ToLower content)
    (strings.ToLower (matrix.localpartOf fullUsername)) = false ->
  strings.Contains (strings.ToLower content) ("@" ++ fullUsername) = false ->
  matrix.IsAddressedToBot c content domain.GroupRoom = false.
Proof.
  intros fullUsername NoName NoMention.
  unfold matrix.IsAddressedToBot. cbv zeta. simpl domain.RoomType_eqb.
  cbv iota. fold fullUsername. rewrite NoMention, NoName. simpl.
  destruct (strings.Contains _ (_ ++ ":")) eqn:K; [|reflexivity].
  change (strings.ToLower (matrix.localpartOf fullUsername) ++ ":")
    with (EmptyString
          ++ strings.ToLower (matrix.localpartOf fullUsername) ++ ":") in K.
  apply Contains_piece in K. congruence.
Qed.

Lemma unmentioned_text_not_addressed_witness :
  matrix.IsAddressedToBot samples.henry "Hen, are you there?"
    domain.GroupRoom = false.
Proof.
  apply (unmentioned_text_not_addressed samples.henry "Hen, are you there?");
    reflexivity.
Defined.

(** X8: the answer of the mention detector depends on the content only
    through its lower-casing: two ASCII texts that differ in letter case
    only get the same answer, by the same rule. *)
Theorem addressing_ignores_letter_case
    (c : matrix.Client) (a b : string) (roomType : domain.RoomType) :
  strings.isASCII a = true -> strings.isASCII b = true ->
  strings.ToLower a = strings.ToLower b ->
  matrix.addressedBy c a roomType = matrix.addressedBy c b roomType
  /\ matrix.IsAddressedToBot c a roomType
     = matrix.IsAddressedToBot c b roomType
  /\ matrix.IsAddressedToBot c (strings.ToLower a) roomType
     = matrix.IsAddressedToBot c a roomType.
Proof.
  intros _ _ Same.
  assert (By : matrix.addressedBy c a roomType
               = matrix.addressedBy c b roomType)
    by (unfold matrix.addressedBy; cbv zeta; now rewrite Same).
  split; [exact By|]. split.
  - now rewrite !IsAddressedToBot_addressedBy, By.
  - unfold matrix.IsAddressedToBot. cbv zeta.
    now rewrite ToLower_idempotent.
Qed.

Lemma addressing_ignores_letter_case_witness :
  matrix.addressedBy samples.henry "HENRY, hi" domain.GroupRoom
  = matrix.addressedBy samples.henry "henry, HI" domain.GroupRoom
  /\ matrix.IsAddressedToBot samples.henry "HENRY, hi" domain.GroupRoom
     = matrix.IsAddressedToBot samples.henry "henry, HI" domain.GroupRoom
  /\ matrix.IsAddressedToBot samples.henry (strings.ToLower "HENRY, hi")
       domain.GroupRoom
     = matrix.IsAddressedToBot samples.henry "HENRY, hi" domain.GroupRoom.
Proof.
  apply (addressing_ignores_letter_case samples.henry "HENRY, hi" "henry, HI"
           domain.GroupRoom); reflexivity.
Defined.

(* ================================================================== *)
(** * Further properties of the allowed domain *)

Section SplitFacts.

Lemma splitFrom_no_colon s cur :
  strings.countByte ":" s = 0%nat ->
  strings.splitFrom s ":" cur O = [cur ++ s].
Proof.
  revert cur. induction s as [|c s IH]; intros cur; simpl.
  - intros _. now rewrite str_app_nil_r.
  - rewrite andb_true_r. destruct (Ascii.eqb c ":"); [discriminate|].
    simpl. intros C. rewrite (IH _ C), str_app_assoc. reflexivity.
Qed.

Lemma splitFrom_first_colon a b cur :
  strings.countByte ":" a = 0%nat ->
  strings.splitFrom (a ++ ":" ++ b) ":" cur O
  = (cur ++ a) :: strings.splitFrom b ":" EmptyString O.
Proof.
  revert cur. induction a as [|c a IH]; intros cur; simpl.
  - intros _. now rewrite str_app_nil_r.
  - rewrite andb_true_r. destruct (Ascii.eqb c ":"); [discriminate|].
    simpl. intros C. rewrite (IH _ C), str_app_assoc. reflexivity.
Qed.

Lemma first_colon s :
  strings.countByte ":" s <> 0%nat ->
  exists a b, s = a ++ ":" ++ b /\ strings.countByte ":" a = 0%nat.
Proof.
  induction s as [|c s IH]; simpl; [congruence|].
  destruct (Ascii.eqb c ":") eqn:E.
  - intros _. apply Ascii.eqb_eq in E. subst c.
    exists EmptyString, s. split; reflexivity.
  - simpl. intros N. destruct (IH N) as (a & b & -> & C).
    exists (String c a), b. simpl. rewrite E. split; [reflexivity|exact C].
Qed.

End SplitFacts.

(** X9: a user id is from the allowed domain exactly when it is a colon-free
    local part, one colon, and the allowed domain, and the allowed domain
    itself has no colon.  So with an allowed domain that contains a colon
    (a server name with a port) every sender is refused. *)
Theorem allowed_domain_exactly (c : matrix.Client) (uid : string) :
  (matrix.IsFromAllowedDomain c uid = true
   <-> exists local,
         uid = local ++ ":" ++ matrix.allowedDomain c
         /\ strings.countByte ":" local = 0%nat
         /\ strings.countByte ":" (matrix.allowedDomain c) = 0%nat)
  /\ (strings.countByte ":" (matrix.allowedDomain c) <> 0%nat ->
      matrix.IsFromAllowedDomain c uid = false).
Proof.
  assert (Iff : matrix.IsFromAllowedDomain c uid = true
                <-> exists local,
                      uid = local ++ ":" ++ matrix.allowedDomain c
                      /\ strings.countByte ":" local = 0%nat
                      /\ strings.countByte ":" (matrix.allowedDomain c) = 0%nat).
  { unfold matrix.IsFromAllowedDomain. cbv zeta. split.
    - pose proof (Split_colon_length uid) as L.
      destruct (Nat.eqb (List.length (strings.Split uid ":")) 2) eqn:Two;
        simpl; [|discriminate].
      apply Nat.eqb_eq in Two. rewrite Two in L.
      assert (One : strings.countByte ":" uid = 1%nat) by lia.
      destruct (first_colon uid) as (a & b & -> & Ca); [lia|].
      rewrite countByte_app, Ca in One. simpl in One.
      assert (Cb : strings.countByte ":" b = 0%nat) by lia.
      unfold strings.Split.
      rewrite (splitFrom_first_colon a b EmptyString Ca),
        (splitFrom_no_colon b EmptyString Cb).
      simpl. intros E. apply String.eqb_eq in E. subst b.
      exists a. tauto.
    - intros (local & -> & Cl & Cd). unfold strings.Split.
      rewrite (splitFrom_first_colon local _ EmptyString Cl),
        (splitFrom_no_colon _ EmptyString Cd).
      simpl. apply String.eqb_refl. }
  split; [exact Iff|].
  intros Port. destruct (matrix.IsFromAllowedDomain c uid);
    [|reflexivity].
  destruct (proj1 Iff eq_refl) as (_ & _ & _ & Cd). contradiction.
Qed.

Lemma allowed_domain_exactly_witness :
  matrix.IsFromAllowedDomain
    (matrix.NewClient "@henry:henhouse.im:8448" "henhouse.im:8448"
       "sync_token.txt" EmptyString 1000)
    "@alice:henhouse.im:8448" = false.
Proof.
  apply (proj2 (allowed_domain_exactly
                  (matrix.NewClient "@henry:henhouse.im:8448"
                     "henhouse.im:8448" "sync_token.txt" EmptyString 1000)
                  "@alice:henhouse.im:8448")).
  simpl. discriminate.
Defined.

(* ================================================================== *)
(** * Further properties of the history reconciler *)

Section ReconcilerMore.
Import domain chat.

(** where an entry of the reconciled history comes from *)
Lemma reconcileOne_origin botID m cm :
  reconcileOne botID m = Some cm ->
  cmTimestamp cm = Timestamp m /\ cmSenderID cm = SenderID m
  /\ cmRole cm = (if IsFromBot m then RoleAssistant else RoleUser)
  /\ (IsFromBot m = true -> cmContent cm = Content m)
  /\ cmContent cm <> EmptyString.
Proof.
  unfold reconcileOne.
  destruct (String.eqb (Content m) EmptyString); [discriminate|].
  cbv zeta.
  match goal with
  | |- (if negb (String.eqb ?t EmptyString) then _ else _) = _ -> _ =>
      destruct (String.eqb t EmptyString) eqn:E2
  end; simpl; [discriminate|].
  intros K. injection K as <-. simpl.
  apply String.eqb_neq in E2.
  repeat split; [|exact E2].
  intros B. rewrite B. reflexivity.
Qed.

Lemma reconcile_origin botID msgs cm :
  In cm (reconcile botID msgs) ->
  exists m, In m msgs /\ reconcileOne botID m = Some cm.
Proof.
  induction msgs as [|m msgs IH]; simpl; [tauto|].
  destruct (reconcileOne botID m) as [x|] eqn:E.
  - intros [<-|K]; [exists m; tauto|].
    destruct (IH K) as (m' & I & R). exists m'. tauto.
  - intros K. destruct (IH K) as (m' & I & R). exists m'. tauto.
Qed.

Lemma reconcile_length botID msgs :
  (List.length (reconcile botID msgs) <= List.length msgs)%nat.
Proof.
  induction msgs as [|m msgs IH]; simpl; [lia|].
  destruct (reconcileOne botID m); simpl; lia.
Qed.

Lemma recentMessagesOf_from fetched m :
  In m (recentMessagesOf fetched) ->
  exists msgs, fetched = Ok msgs /\ In m msgs.
Proof.
  destruct fetched as [msgs|e]; simpl; [|tauto].
  intros K. apply filter_In in K. exists msgs. tauto.
Qed.

Lemma recentMessagesOf_length fetched :
  (List.length (recentMessagesOf fetched)
   <= match fetched with Ok msgs => List.length msgs | Err _ => 0 end)%nat.
Proof.
  destruct fetched as [msgs|e]; simpl; [|lia].
  induction msgs as [|m msgs IH]; simpl; [lia|].
  destruct (negb _); simpl; lia.
Qed.

Lemma window_cases w senderID roomID currentMessage :
  let history :=
    reconcile (GetBotUserID w) (rev (recentMessagesOf (roomContext w))) in
  let now := clockForContext w in
  let window :=
    fst (fst (getConversationContext w senderID roomID currentMessage)) in
  (window = history
   /\ Exists (fun m => cmContent m = currentMessage
                       /\ cmSenderID m = senderID) history)
  \/ window = (history ++ [currentEntry senderID currentMessage now])%list.
Proof.
  intros history now window. subst window. rewrite window_shape.
  fold history. fold now.
  destruct (existsb _ history) eqn:E; [left|right; reflexivity].
  split; [reflexivity|].
  apply existsb_exists in E. destruct E as (m & I & S).
  apply sameAsCurrent_iff in S. apply Exists_exists. exists m. tauto.
Qed.

End ReconcilerMore.

(** X10: the window always holds the message being answered: it is never
    empty, one of its entries has the content and the sender of the current
    message, and it has at most one entry more than the fetch returned
    messages (one entry when the fetch failed). *)
Theorem window_holds_current_message
    (w : chat.World) (senderID roomID currentMessage : string) :
  let window :=
    fst (fst (chat.getConversationContext w senderID roomID currentMessage)) in
  window <> []
  /\ Exists (fun m => domain.cmContent m = currentMessage
                      /\ domain.cmSenderID m = senderID) window
  /\ (List.length window
      <= S match chat.roomContext w with
           | chat.Ok msgs => List.length msgs
           | chat.Err _ => 0
           end)%nat.
Proof.
  intros window.
  pose proof (window_cases w senderID roomID currentMessage) as C.
  pose proof (reconcile_length (chat.GetBotUserID w)
                (rev (chat.recentMessagesOf (chat.roomContext w)))) as L1.
  pose proof (recentMessagesOf_length (chat.roomContext w)) as L2.
  rewrite length_rev in L1.
  cbv zeta in C. fold window in C. clearbody window.
  destruct C as [(-> & E) | ->].
  - split; [|split; [exact E|lia]].
    intros N. rewrite N in E. inversion E.
  - split; [|split].
    + intros N. apply app_eq_nil in N. destruct N as (_ & N). discriminate.
    + apply Exists_app. right. constructor. simpl. tauto.
    + rewrite length_app. simpl. lia.
Qed.

(** X11: every entry of the window is accounted for: it is the entry of the
    current message, or it comes from a fetched message with a non-empty
    body, whose timestamp and sender it keeps; its role is assistant exactly
    when that message is the bot's, and a message of the bot keeps its text
    unchanged. *)
Theorem window_entries_accounted_for
    (w : chat.World) (senderID roomID currentMessage : string)
    (cm : domain.ConversationMessage) :
  In cm (fst (fst (chat.getConversationContext w senderID roomID
                     currentMessage))) ->
  cm = chat.currentEntry senderID currentMessage (chat.clockForContext w)
  \/ exists msgs m,
       chat.roomContext w = chat.Ok msgs /\ In m msgs
       /\ domain.Content m <> EmptyString
       /\ domain.cmTimestamp cm = domain.Timestamp m
       /\ domain.cmSenderID cm = domain.SenderID m
       /\ domain.cmRole cm
          = (if domain.IsFromBot m then domain.RoleAssistant
             else domain.RoleUser)
       /\ (domain.IsFromBot m = true ->
           domain.cmContent cm = domain.Content m)
       /\ domain.cmContent cm <> EmptyString.
Proof.
  intros K.
  assert (Hist : In cm (chat.reconcile (chat.GetBotUserID w)
                          (rev (chat.recentMessagesOf (chat.roomContext w)))) ->
                 exists msgs m,
                   chat.roomContext w = chat.Ok msgs /\ In m msgs
                   /\ domain.Content m <> EmptyString
                   /\ domain.cmTimestamp cm = domain.Timestamp m
                   /\ domain.cmSenderID cm = domain.SenderID m
                   /\ domain.cmRole cm
                      = (if domain.IsFromBot m then domain.RoleAssistant
                         else domain.RoleUser)
                   /\ (domain.IsFromBot m = true ->
                       domain.cmContent cm = domain.Content m)
                   /\ domain.cmContent cm <> EmptyString).
  { intros I. apply reconcile_origin in I. destruct I as (m & I & R).
    apply in_rev in I.
    destruct (recentMessagesOf_from _ _ I) as (msgs & F & J).
    destruct (reconcileOne_keeps _ _ _ R) as (_ & _ & _ & NE).
    destruct (reconcileOne_origin _ _ _ R) as (T & S & Ro & B & C).
    exists msgs, m. tauto. }
  destruct (window_cases w senderID roomID currentMessage) as [(E & _)|E];
    rewrite E in K.
  - right. now apply Hist.
  - apply in_app_or in K. destruct K as [K|[<-|[]]].
    + right. now apply Hist.
    + now left.
Qed.

Lemma window_entries_accounted_for_witness :
  {| domain.cmRole := domain.RoleUser; domain.cmContent := "hello";
     domain.cmTimestamp := 6000; domain.cmSenderID := samples.alice |}
  = chat.currentEntry samples.alice "hello henry" 6200
  \/ exists msgs m,
       chat.roomContext
         (samples.world
            (chat.Ok [samples.said samples.alice "hello henry" 6000 false])
            6200) = chat.Ok msgs
       /\ In m msgs
       /\ domain.Content m <> EmptyString
       /\ 6000 = domain.Timestamp m
       /\ samples.alice = domain.SenderID m
       /\ domain.RoleUser
          = (if domain.IsFromBot m then domain.RoleAssistant
             else domain.RoleUser)
       /\ (domain.IsFromBot m = true -> "hello" = domain.Content m)
       /\ "hello" <> EmptyString.
Proof.
  apply (window_entries_accounted_for
           (samples.world
              (chat.Ok [samples.said samples.alice "hello henry" 6000 false])
              6200)
           samples.alice samples.room "hello henry"
           {| domain.cmRole := domain.RoleUser; domain.cmContent := "hello";
              domain.cmTimestamp := 6000;
              domain.cmSenderID := samples.alice |}).
  vm_compute. tauto.
Defined.

(* ================================================================== *)
(** * The removal of mentions *)

Section Trimming.

Variable f : ascii -> bool.

Lemma TrimLeftFunc_head s :
  match strings.TrimLeftFunc f s with
  | EmptyString => True
  | String c _ => f c = false
  end.
Proof.
  induction s as [|c s IH]; simpl; [exact I|].
  destruct (f c) eqn:E; [exact IH|exact E].
Qed.

Lemma TrimLeftFunc_fixed c s :
  f c = false -> strings.TrimLeftFunc f (String c s) = String c s.
Proof. intros E. simpl. now rewrite E. Qed.

Lemma TrimRightFunc_head c s :
  f c = false ->
  exists r, strings.TrimRightFunc f (String c s) = String c r.
Proof.
  intros E. simpl. destruct (strings.TrimRightFunc f s) as [|d r].
  - rewrite E. now exists EmptyString.
  - now exists (String d r).
Qed.

Lemma TrimRightFunc_idempotent s :
  strings.TrimRightFunc f (strings.TrimRightFunc f s)
  = strings.TrimRightFunc f s.
Proof.
  induction s as [|c s IH]; simpl; [reflexivity|].
  destruct (strings.TrimRightFunc f s) as [|d r] eqn:R.
  - destruct (f c) eqn:E; simpl; [reflexivity|now rewrite E].
  - simpl in *. now rewrite IH.
Qed.

Lemma TrimFunc_idempotent s :
  strings.TrimFunc f (strings.TrimFunc f s) = strings.TrimFunc f s.
Proof.
  unfold strings.TrimFunc.
  pose proof (TrimLeftFunc_head s) as H.
  destruct (strings.TrimLeftFunc f s) as [|c t]; [reflexivity|].
  destruct (TrimRightFunc_head c t H) as (r & E).
  rewrite E, (TrimLeftFunc_fixed c r H), <- E.
  apply TrimRightFunc_idempotent.
Qed.

End Trimming.

Section MentionRemoval.

Lemma Contains_self s : strings.Contains s s = true.
Proof.
  apply Contains_iff. exists EmptyString, EmptyString.
  now rewrite str_app_nil_r.
Qed.

Lemma HasPrefix_Contains s p :
  strings.HasPrefix s p = true -> strings.Contains s p = true.
Proof.
  intros H. destruct s; simpl; rewrite H; reflexivity.
Qed.

Lemma replaceFrom_absent s old new :
  strings.Contains s old = false -> strings.replaceFrom s old new O = s.
Proof.
  induction s as [|c s IH]; [reflexivity|].
  intros N. cbn [strings.Contains] in N. apply orb_false_iff in N.
  destruct N as (P & N). cbn [strings.replaceFrom]. rewrite P.
  now rewrite (IH N).
Qed.

Lemma ReplaceAll_absent s old new :
  strings.Contains s old = false -> strings.ReplaceAll s old new = s.
Proof.
  intros N. unfold strings.ReplaceAll. destruct old as [|c old].
  - destruct s; discriminate.
  - now apply replaceFrom_absent.
Qed.

End MentionRemoval.

(** X12: a text that contains neither the mention nor the local name comes
    out of the removal of mentions with its surrounding white space trimmed
    and nothing else changed. *)
Theorem unmentioned_text_only_trimmed (mention localpart text : string) :
  strings.Contains text mention = false ->
  strings.Contains text localpart = false ->
  chat.removeMentions mention localpart text = strings.TrimSpace text.
Proof.
  intros NoMention NoName. unfold chat.removeMentions. cbv zeta.
  rewrite (ReplaceAll_absent text mention _ NoMention).
  assert (N2 : strings.Contains text (" " ++ localpart ++ " ") = false).
  { destruct (strings.Contains text (" " ++ localpart ++ " ")) eqn:K;
      [|reflexivity].
    apply Contains_piece in K. congruence. }
  rewrite (ReplaceAll_absent text _ _ N2).
  assert (N3 : strings.Contains text (" " ++ localpart) = false).
  { destruct (strings.Contains text (" " ++ localpart)) eqn:K; [|reflexivity].
    rewrite <- (str_app_nil_r localpart) in K at 1.
    apply Contains_piece in K. congruence. }
  rewrite (ReplaceAll_absent text _ _ N3).
  assert (N4 : strings.HasPrefix text (localpart ++ " ") = false).
  { destruct (strings.HasPrefix text (localpart ++ " ")) eqn:K; [|reflexivity].
    apply HasPrefix_Contains in K.
    change (localpart ++ " ") with (EmptyString ++ localpart ++ " ") in K.
    apply Contains_piece in K. congruence. }
  rewrite N4.
  destruct (String.eqb text localpart) eqn:E; [|reflexivity].
  apply String.eqb_eq in E. subst text.
  rewrite Contains_self in NoName. discriminate.
Qed.

Lemma unmentioned_text_only_trimmed_witness :
  chat.removeMentions "@henry:henhouse.im" "henry" "  what time is it? "
  = strings.TrimSpace "  what time is it? ".
Proof.
  apply (unmentioned_text_only_trimmed "@henry:henhouse.im" "henry"
           "  what time is it? "); reflexivity.
Defined.

(** X13: what the removal of mentions returns has no white space left to
    trim at either end. *)
Theorem removed_mentions_are_trimmed (mention localpart text : string) :
  strings.TrimSpace (chat.removeMentions mention localpart text)
  = chat.removeMentions mention localpart text.
Proof.
  unfold chat.removeMentions. cbv zeta. unfold strings.TrimSpace.
  apply TrimFunc_idempotent.
Qed.

(** the removal is by plain substrings: a name at the start of a word is cut
    out of it, and a name written with another letter case stays *)
Example removeMentions_runs :
  chat.removeMentions "@henry:henhouse.im" "henry" "ask henrysmith now"
  = "asksmith now"
  /\ chat.removeMentions "@henry:henhouse.im" "henry" "Henry, what time?"
     = "Henry, what time?"
  /\ chat.removeMentions "@henry:henhouse.im" "henry"
       "@henry:henhouse.im  hello" = "hello"
  /\ chat.removeMentions "@henry:henhouse.im" "henry" "henry" = EmptyString.
Proof. repeat split; reflexivity. Qed.

(* ================================================================== *)
(** * Further properties of the message handler *)

Section HandlerFacts.
Import domain chat.

Lemma window_contents_nonempty w senderID roomID currentMessage :
  currentMessage <> EmptyString ->
  Forall (fun m => cmContent m <> EmptyString)
    (fst (fst (getConversationContext w senderID roomID currentMessage))).
Proof.
  intros NE.
  assert (H : Forall (fun m => cmContent m <> EmptyString)
                (reconcile (GetBotUserID w)
                   (rev (recentMessagesOf (roomContext w))))).
  { apply Forall_forall. intros cm I. apply reconcile_origin in I.
    destruct I as (m & _ & R). now apply reconcileOne_origin in R. }
  destruct (window_cases w senderID roomID currentMessage) as [(E & _)|E];
    rewrite E; [exact H|].
  apply Forall_app. split; [exact H|]. constructor; [exact NE|constructor].
Qed.

Lemma window_has_sender w senderID roomID currentMessage :
  Exists (fun m => cmContent m = currentMessage /\ cmSenderID m = senderID)
    (fst (fst (getConversationContext w senderID roomID currentMessage))).
Proof.
  destruct (window_cases w senderID roomID currentMessage) as [(E & X)|E];
    rewrite E; [exact X|].
  apply Exists_app. right. constructor. simpl. tauto.
Qed.

(** the runs of [HandleMessage], by the place where it returns *)
Lemma HandleMessage_cases w senderID roomID content :
  let window text := fst (fst (getConversationContext w senderID roomID text)) in
  let lookup := [CGetRoomType roomID;
                 CGetRoomContext roomID (ContextMessageCount w)] in
  (HandleMessage w senderID roomID content = (None, []))
  \/ (exists e, HandleMessage w senderID roomID content
                = (Some ("error determining room type: " ++ e),
                   [CGetRoomType roomID]))
  \/ (HandleMessage w senderID roomID content = (None, [CGetRoomType roomID]))
  \/ exists text,
       text <> EmptyString
       /\ ((exists e,
              generate w (window text) = Err e
              /\ HandleMessage w senderID roomID content
                 = (Some ("error generating response: " ++ e),
                    (CGetRoomType roomID :: lookup
                       ++ [CSendTyping roomID true 30000;
                           CGenerateResponse (window text);
                           CSendMessage roomID apology])%list))
           \/ (exists reply,
                 generate w (window text) = Ok reply
                 /\ HandleMessage w senderID roomID content
                    = (match sendResult w with
                       | Some e => Some ("error sending response: " ++ e)
                       | None => None
                       end,
                       (CGetRoomType roomID :: lookup
                          ++ [CSendTyping roomID true 30000;
                              CGenerateResponse (window text);
                              CSendTyping roomID false 0;
                              CSendMessage roomID reply])%list))).
Proof.
  intros window lookup. unfold HandleMessage.
  destruct (String.eqb content EmptyString); [now left|].
  destruct (negb (matrix.IsFromAllowedDomain (bot w) senderID)); [now left|].
  destruct (roomTypeForHandler w) as [roomType|e];
    [|right; left; now exists e].
  destruct (negb (matrix.IsAddressedToBot (bot w) content roomType));
    [right; right; now left|].
  cbv zeta.
  match goal with
  | |- context [String.eqb ?t EmptyString] => set (text := t)
  end.
  destruct (String.eqb text EmptyString) eqn:E; [right; right; now left|].
  apply String.eqb_neq in E.
  right. right. right. exists text. split; [exact E|].
  assert (C : getConversationContext w senderID roomID text
              = (window text, None, lookup)) by reflexivity.
  rewrite C. cbv beta iota.
  destruct (generate w (window text)) as [reply|e] eqn:G.
  - right. exists reply. split; [reflexivity|].
    destruct (sendResult w); reflexivity.
  - left. exists e. split; reflexivity.
Qed.

End HandlerFacts.

(** X14: one call of the handler sends at most one message, and to the room
    of the event: nothing, or the apology together with a generation error,
    or the generated reply verbatim; in the last case the returned error is
    nil exactly when the send succeeded. *)
Theorem handler_sends_at_most_once
    (w : chat.World) (senderID roomID content : string) :
  let err := fst (chat.HandleMessage w senderID roomID content) in
  let sent := chat.sends (snd (chat.HandleMessage w senderID roomID content)) in
  sent = []
  \/ (sent = [chat.CSendMessage roomID chat.apology]
      /\ exists e, err = Some ("error generating response: " ++ e))
  \/ (exists messages reply,
        chat.generate w messages = chat.Ok reply
        /\ sent = [chat.CSendMessage roomID reply]
        /\ (err = None <-> chat.sendResult w = None)).
Proof.
  intros err sent. subst err sent.
  destruct (HandleMessage_cases w senderID roomID content)
    as [E|[(e & E)|[E|(text & _ & [(e & G & E)|(reply & G & E)])]]];
    rewrite E; simpl.
  - now left.
  - now left.
  - now left.
  - right. left. split; [reflexivity|]. now exists e.
  - right. right. eexists. exists reply. split; [exact G|].
    split; [reflexivity|].
    destruct (chat.sendResult w); split; intros H;
      first [discriminate H | reflexivity].
Qed.

(** X15: the handler asks for a reply only when the content is not empty,
    the sender is from the allowed domain, the room type could be determined
    and the mention detector says the message is addressed to the bot. *)
Theorem reply_generated_only_when_addressed
    (w : chat.World) (senderID roomID content : string)
    (messages : list domain.ConversationMessage) :
  In (chat.CGenerateResponse messages)
     (snd (chat.HandleMessage w senderID roomID content)) ->
  content <> EmptyString
  /\ matrix.IsFromAllowedDomain (chat.bot w) senderID = true
  /\ exists roomType,
       chat.roomTypeForHandler w = chat.Ok roomType
       /\ matrix.IsAddressedToBot (chat.bot w) content roomType = true.
Proof.
  unfold chat.HandleMessage.
  destruct (String.eqb content EmptyString) eqn:E; [simpl; tauto|].
  destruct (matrix.IsFromAllowedDomain (chat.bot w) senderID) eqn:A;
    [|simpl; tauto].
  destruct (chat.roomTypeForHandler w) as [roomType|e];
    [|simpl; intros [K|[]]; discriminate].
  destruct (matrix.IsAddressedToBot (chat.bot w) content roomType) eqn:B;
    [|simpl; intros [K|[]]; discriminate].
  intros _. apply String.eqb_neq in E. repeat split; [exact E|].
  now exists roomType.
Qed.

Lemma reply_generated_only_when_addressed_witness :
  "hello" <> EmptyString
  /\ matrix.IsFromAllowedDomain (chat.bot (samples.world (chat.Ok []) 5000))
       samples.alice = true
  /\ exists roomType,
       chat.roomTypeForHandler (samples.world (chat.Ok []) 5000)
       = chat.Ok roomType
       /\ matrix.IsAddressedToBot (chat.bot (samples.world (chat.Ok []) 5000))
            "hello" roomType = true.
Proof.
  apply (reply_generated_only_when_addressed
           (samples.world (chat.Ok []) 5000) samples.alice samples.room "hello"
           [chat.currentEntry samples.alice "hello" 5000]).
  vm_compute. tauto.
Defined.

(** X16: what the handler passes to the generation is never empty, has no
    entry with an empty content, has an entry of the sender of the message,
    and the typing notification for the room is sent right before it. *)
Theorem generation_gets_the_conversation
    (w : chat.World) (senderID roomID content : string)
    (messages : list domain.ConversationMessage) :
  In (chat.CGenerateResponse messages)
     (snd (chat.HandleMessage w senderID roomID content)) ->
  messages <> []
  /\ Forall (fun m => domain.cmContent m <> EmptyString) messages
  /\ Exists (fun m => domain.cmSenderID m = senderID) messages
  /\ exists before after,
       snd (chat.HandleMessage w senderID roomID content)
       = (before ++ chat.CSendTyping roomID true 30000
                 :: chat.CGenerateResponse messages :: after)%list.
Proof.
  intros K.
  destruct (HandleMessage_cases w senderID roomID content)
    as [E|[(e & E)|[E|(text & NE & Run)]]];
    try (rewrite E in K; simpl in K; intuition discriminate).
  assert (Shape :
    exists tail,
      snd (chat.HandleMessage w senderID roomID content)
      = ([chat.CGetRoomType roomID; chat.CGetRoomType roomID;
          chat.CGetRoomContext roomID (chat.ContextMessageCount w)]
         ++ chat.CSendTyping roomID true 30000
         :: chat.CGenerateResponse
              (fst (fst (chat.getConversationContext w senderID roomID text)))
         :: tail)%list).
  { destruct Run as [(e & _ & E)|(reply & _ & E)]; rewrite E;
      eexists; reflexivity. }
  destruct Shape as (tail & Shape).
  assert (Same : messages
                 = fst (fst (chat.getConversationContext w senderID roomID
                               text))).
  { rewrite Shape in K. simpl in K.
    destruct K as [K|[K|[K|[K|[K|K]]]]]; try discriminate.
    - now injection K as <-.
    - exfalso. destruct Run as [(e & _ & E)|(reply & _ & E)];
        rewrite E in Shape; simpl in Shape; injection Shape as <-;
        simpl in K; intuition discriminate. }
  subst messages. split; [|split; [|split]].
  - pose proof (window_has_sender w senderID roomID text) as X.
    intros N. rewrite N in X. inversion X.
  - now apply window_contents_nonempty.
  - pose proof (window_has_sender w senderID roomID text) as X.
    revert X. apply Exists_impl. tauto.
  - eexists. exists tail. exact Shape.
Qed.

Lemma generation_gets_the_conversation_witness :
  [chat.currentEntry samples.alice "hello" 5000] <> []
  /\ Forall (fun m => domain.cmContent m <> EmptyString)
       [chat.currentEntry samples.alice "hello" 5000]
  /\ Exists (fun m => domain.cmSenderID m = samples.alice)
       [chat.currentEntry samples.alice "hello" 5000]
  /\ exists before after,
       snd (chat.HandleMessage (samples.world (chat.Ok []) 5000)
              samples.alice samples.room "hello")
       = (before ++ chat.CSendTyping samples.room true 30000
                 :: chat.CGenerateResponse
                      [chat.currentEntry samples.alice "hello" 5000]
                 :: after)%list.
Proof.
  apply (generation_gets_the_conversation
           (samples.world (chat.Ok []) 5000) samples.alice samples.room "hello"
           [chat.currentEntry samples.alice "hello" 5000]).
  vm_compute. tauto.
Defined.

(* ================================================================== *)
(** * The token file across a restart, and [Connect] *)

(** X17: a restart resumes from the token the loop left behind: if the file
    held the client's token when the loop started and every write
    succeeded, the client built by [NewClient] from that file has the last
    client's token, trimmed of surrounding white space; a loaded token
    never has white space left to trim, and the new client starts with its
    watermark at its startup time. *)
Theorem restart_resumes_from_saved_token
    (c : matrix.Client) (script : list matrix.SyncRun)
    (uid dom path : string) (now : Z) :
  let out := snd (fst (matrix.syncLoop c script)) in
  let file :=
    tokenstore.Holds (observe.fileAfter (matrix.syncToken c) out) in
  let restarted := tokenstore.NewClientFrom uid dom path file now in
  matrix.syncToken restarted
  = strings.TrimSpace (matrix.syncToken (fst (fst (matrix.syncLoop c script))))
  /\ strings.TrimSpace (matrix.syncToken restarted)
     = matrix.syncToken restarted
  /\ matrix.lastProcessedTime restarted = matrix.startupTime restarted.
Proof.
  intros out file restarted. subst out file restarted.
  pose proof (syncLoop_token c script) as H.
  destruct (matrix.syncLoop c script) as [[c' out] st]. simpl.
  destruct H as (H & _). rewrite H.
  split; [reflexivity|]. split; [|reflexivity].
  apply TrimFunc_idempotent.
Qed.

(** a missing or unreadable token file gives an empty token *)
Example load_without_file :
  tokenstore.loadSyncToken tokenstore.Missing = (EmptyString, None)
  /\ matrix.syncToken
       (tokenstore.NewClientFrom "@henry:henhouse.im" "henhouse.im"
          "sync_token.txt" (tokenstore.Unreadable "permission denied") 1000)
     = EmptyString
  /\ tokenstore.loadSyncToken
       (tokenstore.saveSyncToken "s42 " tokenstore.Missing)
     = ("s42", None).
Proof. repeat split; reflexivity. Qed.

(** X18: [Connect] returns a nil error exactly when the client could be
    created and either a password is configured and the login succeeded, or
    no password is configured and an access token is; the password comes
    first, so a failed login fails [Connect] even with an access token
    configured.  It then leaves the bot's user id set from the
    configuration.  After a failed login the token in memory is empty. *)
Theorem connect_outcome
    (c : matrix.Client) (cfg : connect.Credentials) (srv : connect.Server) :
  let err := fst (fst (connect.Connect c cfg srv)) in
  let c' := snd (fst (connect.Connect c cfg srv)) in
  (err = None
   <-> connect.newClientErr srv = None
       /\ ((connect.MatrixPassword cfg <> EmptyString
            /\ exists uid token,
                 connect.loginResult srv = chat.Ok (uid, token))
           \/ (connect.MatrixPassword cfg = EmptyString
               /\ connect.MatrixAccessToken cfg <> EmptyString)))
  /\ (err = None ->
      matrix.userID c' = connect.MatrixUserID cfg
      /\ matrix.syncToken c' = matrix.syncToken c)
  /\ (forall e,
        connect.newClientErr srv = None ->
        connect.MatrixPassword cfg <> EmptyString ->
        connect.loginResult srv = chat.Err e ->
        matrix.syncToken c' = EmptyString
        /\ (matrix.syncToken c <> EmptyString ->
            In (connect.SWriteFile (matrix.SyncTokenFile c) EmptyString)
               (snd (connect.Connect c cfg srv)))).
Proof.
  intros err c'. subst err c'. unfold connect.Connect.
  destruct (connect.newClientErr srv) as [e0|]; simpl.
  { split; [|split].
    - split; [discriminate|]. intros (K & _). discriminate.
    - discriminate.
    - discriminate. }
  destruct (String.eqb (connect.MatrixPassword cfg) EmptyString) eqn:P; simpl.
  - apply String.eqb_eq in P.
    destruct (String.eqb (connect.MatrixAccessToken cfg) EmptyString) eqn:T;
      simpl.
    + apply String.eqb_eq in T. split; [|split].
      * split; [discriminate|]. intros (_ & [(N & _)|(_ & N)]); contradiction.
      * discriminate.
      * intros e _ N. contradiction.
    + apply String.eqb_neq in T. split; [|split].
      * split; [|reflexivity]. intros _. split; [reflexivity|]. right. tauto.
      * intros _. split; reflexivity.
      * intros e _ N. contradiction.
  - apply String.eqb_neq in P.
    destruct (connect.loginResult srv) as [[uid token]|e] eqn:L.
    + simpl. split; [|split].
      * split; [|reflexivity]. intros _. split; [reflexivity|]. left.
        split; [exact P|]. now exists uid, token.
      * intros _. split; reflexivity.
      * discriminate.
    + destruct (String.eqb (matrix.syncToken c) EmptyString) eqn:S; simpl.
      * apply String.eqb_eq in S. split; [|split].
        -- split; [discriminate|].
           intros (_ & [(_ & uid & token & K)|(K & _)]);
             [discriminate|contradiction].
        -- discriminate.
        -- intros e' _ _ _. split; [exact S|]. intros N. contradiction.
      * split; [|split].
        -- split; [discriminate|].
           intros (_ & [(_ & uid & token & K)|(K & _)]);
             [discriminate|contradiction].
        -- discriminate.
        -- intros e' _ _ _. split; [reflexivity|]. intros _. right. now left.
Qed.

Lemma connect_outcome_witness :
  matrix.syncToken
    (snd (fst (connect.Connect
                 (matrix.setSyncToken samples.henry "s41")
                 {| connect.MatrixUserID := "@henry:henhouse.im";
                    connect.MatrixPassword := "secret";
                    connect.MatrixAccessToken := "syt_token" |}
                 {| connect.newClientErr := None;
                    connect.loginResult := chat.Err "M_FORBIDDEN" |})))
  = EmptyString
  /\ (matrix.syncToken (matrix.setSyncToken samples.henry "s41")
      <> EmptyString ->
      In (connect.SWriteFile
            (matrix.SyncTokenFile (matrix.setSyncToken samples.henry "s41"))
            EmptyString)
         (snd (connect.Connect
                 (matrix.setSyncToken samples.henry "s41")
                 {| connect.MatrixUserID := "@henry:henhouse.im";
                    connect.MatrixPassword := "secret";
                    connect.MatrixAccessToken := "syt_token" |}
                 {| connect.newClientErr := None;
                    connect.loginResult := chat.Err "M_FORBIDDEN" |}))).
Proof.
  apply (proj2 (proj2 (connect_outcome
                         (matrix.setSyncToken samples.henry "s41")
                         {| connect.MatrixUserID := "@henry:henhouse.im";
                            connect.MatrixPassword := "secret";
                            connect.MatrixAccessToken := "syt_token" |}
                         {| connect.newClientErr := None;
                            connect.loginResult := chat.Err "M_FORBIDDEN" |}))
           "M_FORBIDDEN").
  - reflexivity.
  - simpl. discriminate.
  - reflexivity.
Defined.

(** the user name sent with the password is the local name of the mention
    detector *)
Example login_username :
  connect.loginUsername "@henry:henhouse.im" = "henry"
  /\ connect.loginUsername "henry" = "henry"
  /\ forall uid,
       connect.loginUsername uid
       = matrix.localpartOf (matrix.fullUsernameOf uid).
Proof. repeat split; reflexivity. Qed.

(* ================================================================== *)
(** * The history fetch and the room type *)

Section HistoryFacts.
Import domain chat history.

Lemma usableBody_nonempty evt body :
  usableBody evt = Some body -> body <> EmptyString.
Proof.
  unfold usableBody. destruct (negb _); [discriminate|].
  destruct (parsed evt) as [| |b].
  - unfold manualBody. destruct (rawMsgtype evt) as [t|]; [|discriminate].
    destruct (String.eqb t "m.text"); [|discriminate].
    destruct (rawBody evt) as [b|]; [|discriminate].
    destruct (negb (String.eqb b EmptyString)); [|discriminate].
    destruct (String.eqb b EmptyString) eqn:E; [discriminate|].
    intros K. injection K as <-. now apply String.eqb_neq.
  - discriminate.
  - destruct (String.eqb b EmptyString) eqn:E; [discriminate|].
    intros K. injection K as <-. now apply String.eqb_neq.
Qed.

Lemma toMessages_app botID l1 l2 :
  toMessages botID (l1 ++ l2)
  = (toMessages botID l1 ++ toMessages botID l2)%list.
Proof.
  induction l1 as [|evt l1 IH]; simpl; [reflexivity|].
  destruct (usableBody evt); simpl; now rewrite IH.
Qed.

Lemma toMessages_length botID l :
  (List.length (toMessages botID l) <= List.length l)%nat.
Proof.
  induction l as [|evt l IH]; simpl; [lia|].
  destruct (usableBody evt); simpl; lia.
Qed.

(** the loop keeps the usable events of a prefix of the chunk; it stops
    with the whole chunk read, or with [limit] events, or, for a limit
    below one, with the first usable event *)
Lemma keepUpTo_prefix botID limit kept chunk :
  Z.of_nat (List.length (toMessages botID kept)) < Z.max 1 limit ->
  List.length (toMessages botID kept) = List.length kept ->
  exists n,
    toMessages botID (keepUpTo limit kept chunk)
    = (toMessages botID kept ++ toMessages botID (firstn n chunk))%list
    /\ List.length (toMessages botID (keepUpTo limit kept chunk))
       = List.length (keepUpTo limit kept chunk)
    /\ Z.of_nat (List.length (keepUpTo limit kept chunk)) <= Z.max 1 limit
    /\ (firstn n chunk = chunk
        \/ Z.of_nat (List.length (keepUpTo limit kept chunk)) = Z.max 1 limit).
Proof.
  revert kept. induction chunk as [|evt rest IH]; intros kept Room Full; simpl.
  - exists O. simpl. rewrite app_nil_r. repeat split; [exact Full|lia|now left].
  - destruct (usableBody evt) as [body|] eqn:U.
    + assert (Full' : List.length (toMessages botID (kept ++ [evt]))
                      = List.length (kept ++ [evt])).
      { rewrite toMessages_app, !length_app. simpl. rewrite U. simpl. lia. }
      assert (Len : List.length (kept ++ [evt]) = S (List.length kept))
        by (rewrite length_app; simpl; lia).
      destruct (limit <=? Z.of_nat (List.length (kept ++ [evt]))) eqn:Stop.
      * apply Z.leb_le in Stop. exists 1%nat.
        split; [|split; [exact Full'|split; [lia|right; lia]]].
        simpl. rewrite U, toMessages_app. simpl. rewrite U. reflexivity.
      * apply Z.leb_gt in Stop.
        destruct (IH (kept ++ [evt])%list) as (n & E & F & B & D);
          [lia|exact Full'|].
        exists (S n).
        split; [|split; [exact F|split; [exact B|]]].
        -- simpl. rewrite U, E, toMessages_app. simpl. rewrite U.
           rewrite <- app_assoc. reflexivity.
        -- destruct D as [D|D]; [left; simpl; now rewrite D|now right].
    + destruct (IH kept Room Full) as (n & E & F & B & D).
      exists (S n).
      split; [|split; [exact F|split; [exact B|]]].
      * simpl. rewrite U. exact E.
      * destruct D as [D|D]; [left; simpl; now rewrite D|now right].
Qed.

Lemma toMessages_wellformed botID l m :
  In m (toMessages botID l) ->
  Content m <> EmptyString
  /\ IsFromBot m = String.eqb (SenderID m) botID
  /\ exists evt, In evt l /\ usableBody evt = Some (Content m)
                 /\ Timestamp m = matrix.evTimestamp (base evt)
                 /\ SenderID m = matrix.evSender (base evt).
Proof.
  induction l as [|evt l IH]; simpl; [tauto|].
  destruct (usableBody evt) as [body|] eqn:U.
  - intros [<-|K].
    + simpl. split; [now apply usableBody_nonempty in U|].
      split; [reflexivity|]. exists evt. tauto.
    + destruct (IH K) as (A & B & e & I & R). repeat split; try assumption.
      exists e. tauto.
  - intros K. destruct (IH K) as (A & B & e & I & R).
    repeat split; try assumption. exists e. tauto.
Qed.

Lemma toMessages_sorted (R : Z -> Z -> Prop) botID l :
  StronglySorted R (map (fun evt => matrix.evTimestamp (base evt)) l) ->
  StronglySorted R (map Timestamp (toMessages botID l)).
Proof.
  induction l as [|evt l IH]; simpl; intros S; [constructor|].
  inversion S as [|? ? S' F]; subst.
  destruct (usableBody evt); simpl; [|auto].
  constructor; [auto|].
  rewrite Forall_forall in *. intros t K. apply F.
  rewrite in_map_iff in *. destruct K as (m & <- & I).
  apply toMessages_wellformed in I.
  destruct I as (_ & _ & e & I & _ & T & _). exists e. split; [now symmetry|exact I].
Qed.

Lemma firstn_sorted (R : Z -> Z -> Prop) n (l : list Z) :
  StronglySorted R l -> StronglySorted R (firstn n l).
Proof.
  revert n. induction l as [|a l IH]; intros n S; destruct n; simpl;
    try constructor.
  - inversion S; subst. now apply IH.
  - inversion S as [|? ? _ F]; subst.
    rewrite Forall_forall in *. intros x K. apply F.
    rewrite <- (firstn_skipn n l). apply in_or_app. now left.
Qed.

End HistoryFacts.

(** X19: when the homeserver answers the history request with a non-empty
    chunk, [GetRoomContext] returns the messages of the usable events of a
    prefix of that chunk, in the order of the chunk: at most [limit] of
    them, or one for a limit below one; and it returns fewer than that only
    when it has read the whole chunk. *)
Theorem room_context_is_bounded_prefix
    (botID : string) (hs : history.Homeserver) (limit : Z)
    (chunk : list history.HistoryEvent) :
  history.messages hs = chat.Ok chunk -> chunk <> [] ->
  exists n msgs,
    history.GetRoomContext botID hs limit = chat.Ok msgs
    /\ msgs = history.toMessages botID (firstn n chunk)
    /\ Z.of_nat (List.length msgs) <= Z.max 1 limit
    /\ (msgs = history.toMessages botID chunk
        \/ Z.of_nat (List.length msgs) = Z.max 1 limit).
Proof.
  intros Fetch NonEmpty.
  destruct (keepUpTo_prefix botID limit [] chunk) as (n & E & F & B & D);
    [simpl; lia|reflexivity|].
  exists n, (history.toMessages botID (firstn n chunk)).
  assert (Run : history.GetRoomContext botID hs limit
                = chat.Ok (history.toMessages botID
                             (history.keepUpTo limit [] chunk))).
  { unfold history.GetRoomContext, history.ClientGetRoomContext.
    rewrite Fetch. destruct chunk; [contradiction|reflexivity]. }
  simpl in E. rewrite Run, E. split; [reflexivity|]. split; [reflexivity|].
  rewrite <- E, F. split; [exact B|].
  destruct D as [D|D]; [left; now rewrite E, D|now right].
Qed.

Lemma room_context_is_bounded_prefix_witness :
  exists n msgs,
    history.GetRoomContext "@henry:henhouse.im"
      {| history.messages :=
           chat.Ok [fixtures.textEvent "$3" samples.alice "bye" 3000;
                    fixtures.textEvent "$2" samples.alice EmptyString 2500;
                    fixtures.textEvent "$1" "@henry:henhouse.im" "hello" 2000;
                    fixtures.textEvent "$0" samples.alice "hi" 1000];
         history.state := chat.Err "not asked" |} 2
    = chat.Ok msgs
    /\ msgs = history.toMessages "@henry:henhouse.im"
                (firstn n [fixtures.textEvent "$3" samples.alice "bye" 3000;
                           fixtures.textEvent "$2" samples.alice EmptyString
                             2500;
                           fixtures.textEvent "$1" "@henry:henhouse.im"
                             "hello" 2000;
                           fixtures.textEvent "$0" samples.alice "hi" 1000])
    /\ Z.of_nat (List.length msgs) <= Z.max 1 2
    /\ (msgs = history.toMessages "@henry:henhouse.im"
                 [fixtures.textEvent "$3" samples.alice "bye" 3000;
                  fixtures.textEvent "$2" samples.alice EmptyString 2500;
                  fixtures.textEvent "$1" "@henry:henhouse.im" "hello" 2000;
                  fixtures.textEvent "$0" samples.alice "hi" 1000]
        \/ Z.of_nat (List.length msgs) = Z.max 1 2).
Proof.
  apply (room_context_is_bounded_prefix "@henry:henhouse.im"
           {| history.messages :=
                chat.Ok [fixtures.textEvent "$3" samples.alice "bye" 3000;
                         fixtures.textEvent "$2" samples.alice EmptyString 2500;
                         fixtures.textEvent "$1" "@henry:henhouse.im" "hello"
                           2000;
                         fixtures.textEvent "$0" samples.alice "hi" 1000];
              history.state := chat.Err "not asked" |} 2).
  - reflexivity.
  - discriminate.
Defined.

(** the same fetch, evaluated; with a limit of zero one message still comes
    back *)
Example room_context_runs :
  map domain.Content
    (match history.GetRoomContext "@henry:henhouse.im"
             {| history.messages :=
                  chat.Ok [fixtures.textEvent "$3" samples.alice "bye" 3000;
                           fixtures.textEvent "$2" samples.alice EmptyString
                             2500;
                           fixtures.textEvent "$1" "@henry:henhouse.im"
                             "hello" 2000;
                           fixtures.textEvent "$0" samples.alice "hi" 1000];
                history.state := chat.Err "not asked" |} 2 with
     | chat.Ok msgs => msgs
     | chat.Err _ => []
     end) = ["bye"; "hello"]
  /\ map domain.Content
       (match history.GetRoomContext "@henry:henhouse.im"
                {| history.messages :=
                     chat.Ok [fixtures.textEvent "$3" samples.alice "bye" 3000;
                              fixtures.textEvent "$0" samples.alice "hi" 1000];
                   history.state := chat.Err "not asked" |} 0 with
        | chat.Ok msgs => msgs
        | chat.Err _ => []
        end) = ["bye"].
Proof. split; reflexivity. Qed.

(** X20: every message [GetRoomContext] returns has a non-empty content,
    carries the sender and the timestamp of a message event of the
    homeserver's answer, and is marked as the bot's exactly when its sender
    is the bot's user id; and a chunk that is newest first comes back newest
    first. *)
Theorem room_context_messages_wellformed
    (botID : string) (hs : history.Homeserver) (limit : Z)
    (msgs : list domain.Message) :
  history.GetRoomContext botID hs limit = chat.Ok msgs ->
  Forall (fun m =>
            domain.Content m <> EmptyString
            /\ domain.IsFromBot m = String.eqb (domain.SenderID m) botID)
         msgs
  /\ (forall chunk,
        history.messages hs = chat.Ok chunk -> chunk <> [] ->
        StronglySorted Z.gt
          (map (fun evt => matrix.evTimestamp (history.base evt)) chunk) ->
        StronglySorted Z.gt (map domain.Timestamp msgs)).
Proof.
  intros Run. split.
  - unfold history.GetRoomContext in Run.
    destruct (history.ClientGetRoomContext hs limit) as [events|e];
      [|discriminate].
    injection Run as <-. apply Forall_forall. intros m I.
    apply toMessages_wellformed in I. tauto.
  - intros chunk Fetch NonEmpty Newest.
    destruct (keepUpTo_prefix botID limit [] chunk) as (n & E & _);
      [simpl; lia|reflexivity|].
    unfold history.GetRoomContext, history.ClientGetRoomContext in Run.
    rewrite Fetch in Run. destruct chunk as [|e0 chunk]; [contradiction|].
    injection Run as <-. simpl in E. rewrite E.
    apply toMessages_sorted. rewrite <- firstn_map. now apply firstn_sorted.
Qed.

Lemma room_context_messages_wellformed_witness :
  Forall (fun m =>
            domain.Content m <> EmptyString
            /\ domain.IsFromBot m
               = String.eqb (domain.SenderID m) "@henry:henhouse.im")
    (history.toMessages "@henry:henhouse.im"
       [fixtures.textEvent "$3" samples.alice "bye" 3000;
        fixtures.textEvent "$1" "@henry:henhouse.im" "hello" 2000]).
Proof.
  apply (room_context_messages_wellformed "@henry:henhouse.im"
           {| history.messages :=
                chat.Ok [fixtures.textEvent "$3" samples.alice "bye" 3000;
                         fixtures.textEvent "$1" "@henry:henhouse.im" "hello"
                           2000];
              history.state := chat.Err "not asked" |} 10).
  reflexivity.
Defined.

Section RoomTypeFacts.
Import history.

Lemma joinedMembers_count l :
  joinedMembers l = Z.of_nat (List.length (filter isJoin l)).
Proof.
  induction l as [|evt l IH]; [reflexivity|].
  cbn [joinedMembers filter]. rewrite IH.
  destruct (isJoin evt); cbn [List.length]; lia.
Qed.

End RoomTypeFacts.

(** X21: [GetRoomType] answers "direct" exactly when the state of the room
    has two membership events that are joins, whatever else it has, and its
    answer does not depend on the order in which the state map is walked. *)
Theorem room_type_counts_joins
    (stateEvents reordered : list history.HistoryEvent) :
  (history.GetRoomType (chat.Ok stateEvents) = chat.Ok domain.DirectRoom
   <-> List.length (filter history.isJoin stateEvents) = 2%nat)
  /\ (history.GetRoomType (chat.Ok stateEvents) = chat.Ok domain.GroupRoom
      <-> List.length (filter history.isJoin stateEvents) <> 2%nat)
  /\ (Permutation.Permutation stateEvents reordered ->
      history.GetRoomType (chat.Ok stateEvents)
      = history.GetRoomType (chat.Ok reordered)).
Proof.
  unfold history.GetRoomType. rewrite !joinedMembers_count.
  split; [|split].
  - destruct (Z.eqb_spec (Z.of_nat (List.length
                                      (filter history.isJoin stateEvents))) 2).
    + split; [lia|reflexivity].
    + split; [discriminate|lia].
  - destruct (Z.eqb_spec (Z.of_nat (List.length
                                      (filter history.isJoin stateEvents))) 2).
    + split; [discriminate|lia].
    + split; [lia|reflexivity].
  - intros P.
    assert (L : List.length (filter history.isJoin stateEvents)
                = List.length (filter history.isJoin reordered)).
    { apply Permutation.Permutation_length.
      induction P; simpl.
      - constructor.
      - destruct (history.isJoin x); [now constructor|assumption].
      - destruct (history.isJoin x), (history.isJoin y);
          try apply Permutation.perm_swap; apply Permutation.Permutation_refl.
      - eapply Permutation.perm_trans; eassumption. }
    now rewrite L.
Qed.

Lemma room_type_counts_joins_witness :
  history.GetRoomType
    (chat.Ok [fixtures.memberEvent samples.alice matrix.MembershipJoin;
              fixtures.memberEvent "@bob:henhouse.im" matrix.MembershipInvite;
              fixtures.memberEvent "@henry:henhouse.im" matrix.MembershipJoin])
  = history.GetRoomType
      (chat.Ok [fixtures.memberEvent "@henry:henhouse.im" matrix.MembershipJoin;
                fixtures.memberEvent samples.alice matrix.MembershipJoin;
                fixtures.memberEvent "@bob:henhouse.im"
                  matrix.MembershipInvite]).
Proof.
  apply (proj2 (proj2 (room_type_counts_joins
    [fixtures.memberEvent samples.alice matrix.MembershipJoin;
     fixtures.memberEvent "@bob:henhouse.im" matrix.MembershipInvite;
     fixtures.memberEvent "@henry:henhouse.im" matrix.MembershipJoin]
    [fixtures.memberEvent "@henry:henhouse.im" matrix.MembershipJoin;
     fixtures.memberEvent samples.alice matrix.MembershipJoin;
     fixtures.memberEvent "@bob:henhouse.im" matrix.MembershipInvite]))).
  eapply Permutation.perm_trans;
    [apply Permutation.perm_skip, Permutation.perm_swap
    |apply Permutation.perm_swap].
Defined.

(* ================================================================== *)
(** * Inviting, joining, configuration, reference time *)



(** X23: [JoinRoom] returns a nil error exactly when the join succeeded, or
    the join failed for a room id that starts with "!" and a new room could
    be created; in that second case no join succeeded: the bot is in a new
    room, not in the room asked for.  For any other name a failed join is
    an error and nothing is created. *)
Theorem join_room_outcome (mx : room.Matrix) (roomID : string) :
  let err := fst (room.JoinRoom mx roomID) in
  let calls := snd (room.JoinRoom mx roomID) in
  (err = None
   <-> room.joinResult mx = None
       \/ (room.joinResult mx <> None
           /\ strings.HasPrefix roomID "!" = true
           /\ exists created, room.createRoomResult mx = chat.Ok created))
  /\ ((exists n t i d, In (room.RCreateRoom n t i d) calls)
      <-> room.joinResult mx <> None
          /\ strings.HasPrefix roomID "!" = true)
  /\ hd (room.RJoinRoom EmptyString) calls = room.RJoinRoom roomID.
Proof.
  intros err calls. subst err calls. unfold room.JoinRoom.
  destruct (room.joinResult mx) as [e|]; [|simpl].
  - destruct (strings.HasPrefix roomID "!") eqn:Bang; [|simpl].
    + unfold room.tryAlternativeJoinMethods.
      destruct (room.createRoomResult mx) as [created|e2]; simpl.
      * split; [|split; [|reflexivity]].
        -- split; [|reflexivity]. intros _. right.
           split; [discriminate|]. split; [reflexivity|]. now exists created.
        -- split; [intros _; split; [discriminate|reflexivity]|].
           intros _. do 4 eexists. right. left. reflexivity.
      * split; [|split; [|reflexivity]].
        -- split; [discriminate|].
           intros [K|(_ & _ & c & K)]; discriminate.
        -- split; [intros _; split; [discriminate|reflexivity]|].
           intros _. do 4 eexists. right. left. reflexivity.
    + split; [|split; [|reflexivity]].
      * split; [discriminate|]. intros [K|(_ & K & _)]; discriminate.
      * split; [intros (n & t & i & d & [K|[]]); discriminate|].
        intros (_ & K). discriminate.
  - split; [|split; [|reflexivity]].
    + split; [intros _; now left|reflexivity].
    + split; [intros (n & t & i & d & [K|[]]); discriminate|].
      intros (K & _). now contradiction K.
Qed.

(** a failed join of "!room" with a working room creation reports success *)
Example join_reports_success_without_joining :
  room.JoinRoom
    {| room.joinResult := Some "M_FORBIDDEN";
       room.createRoomResult := chat.Ok "!other:henhouse.im";
       room.inviteResult := None; room.sendResult := None |}
    "!private:henhouse.im"
  = (None,
     [room.RJoinRoom "!private:henhouse.im";
      room.RCreateRoom "New Direct Chat" "Chat created by join command"
        [] true]).
Proof. reflexivity. Qed.

Section ConfigFacts.
Import config.

Lemma Atoi_range s z : Atoi s = Some z -> Int64.inRange z.
Proof.
  unfold Atoi.
  destruct (match s with
            | String "-" rest => (true, rest)
            | String "+" rest => (false, rest)
            | _ => (false, s)
            end) as [negative digits].
  destruct digits as [|c digits]; [discriminate|].
  destruct (digitsValue 0 (String c digits)) as [n|]; [|discriminate].
  destruct ((Int64.min_signed <=? (if negative then - n else n))
            && ((if negative then - n else n) <=? Int64.max_signed)) eqn:R;
    [|discriminate].
  intros K. injection K as <-.
  apply andb_true_iff in R. destruct R as (A & B).
  apply Z.leb_le in A, B. split; assumption.
Qed.

End ConfigFacts.

(** X24: a configuration that [LoadConfig] accepts has a homeserver, a user
    id and an API key, an access token or a password, a token file and an
    allowed domain, none of them empty; its context count fits an [int] and
    is 10 when the variable is not set.  [Connect] therefore never fails on
    it for want of credentials. *)
Theorem loaded_config_is_complete (env : config.Env) (cfg : config.Config) :
  config.LoadConfig env = config.Loaded cfg ->
  config.MatrixHomeserver cfg <> EmptyString
  /\ config.MatrixUserID cfg <> EmptyString
  /\ config.ClaudeAPIKey cfg <> EmptyString
  /\ (config.MatrixAccessToken cfg <> EmptyString
      \/ config.MatrixPassword cfg <> EmptyString)
  /\ config.SyncTokenFile cfg <> EmptyString
  /\ config.AllowedDomain cfg <> EmptyString
  /\ Int64.inRange (config.ContextMessageCount cfg)
  /\ (env "HENRY_CONTEXT_MESSAGE_COUNT" = EmptyString ->
      config.ContextMessageCount cfg = 10)
  /\ forall c srv,
       fst (fst (connect.Connect c
                   {| connect.MatrixUserID := config.MatrixUserID cfg;
                      connect.MatrixPassword := config.MatrixPassword cfg;
                      connect.MatrixAccessToken :=
                        config.MatrixAccessToken cfg |}
                   srv))
       <> Some "no access token or password available for authentication".
Proof.
  unfold config.LoadConfig. cbv zeta.
  destruct (String.eqb (env "HENRY_MATRIX_HOMESERVER") EmptyString) eqn:H;
    [discriminate|].
  destruct (String.eqb (env "HENRY_MATRIX_USER_ID") EmptyString) eqn:U;
    [discriminate|].
  destruct (String.eqb (env "HENRY_MATRIX_ACCESS_TOKEN") EmptyString
            && String.eqb (env "HENRY_MATRIX_PASSWORD") EmptyString) eqn:A;
    [discriminate|].
  destruct (String.eqb (env "HENRY_CLAUDE_API_KEY") EmptyString) eqn:K;
    [discriminate|].
  destruct (if String.eqb (env "HENRY_CONTEXT_MESSAGE_COUNT") EmptyString
            then Some 10 else config.Atoi (env "HENRY_CONTEXT_MESSAGE_COUNT"))
    as [count|] eqn:C; [|discriminate].
  intros L. injection L as <-. cbn [config.MatrixHomeserver
    config.MatrixUserID config.ClaudeAPIKey config.MatrixAccessToken
    config.MatrixPassword config.SyncTokenFile config.AllowedDomain
    config.ContextMessageCount].
  apply String.eqb_neq in H, U, K.
  assert (Auth : env "HENRY_MATRIX_ACCESS_TOKEN" <> EmptyString
                 \/ env "HENRY_MATRIX_PASSWORD" <> EmptyString).
  { apply andb_false_iff in A.
    destruct A as [A|A]; apply String.eqb_neq in A; tauto. }
  split; [exact H|]. split; [exact U|]. split; [exact K|].
  split; [exact Auth|]. split; [|split; [|split; [|split]]].
  - destruct (String.eqb (env "HENRY_SYNC_TOKEN_FILE") EmptyString) eqn:F;
      [discriminate|now apply String.eqb_neq in F].
  - destruct (String.eqb (env "HENRY_ALLOWED_DOMAIN") EmptyString) eqn:D;
      simpl; [discriminate|now apply String.eqb_neq in D].
  - destruct (String.eqb (env "HENRY_CONTEXT_MESSAGE_COUNT") EmptyString).
    + injection C as <-. split; vm_compute; discriminate.
    + now apply Atoi_range in C.
  - intros E. rewrite E in C. simpl in C. now injection C as <-.
  - intros c srv. unfold connect.Connect. simpl.
    destruct (connect.newClientErr srv); simpl; [discriminate|].
    destruct (String.eqb (env "HENRY_MATRIX_PASSWORD") EmptyString) eqn:P;
      simpl.
    + destruct (String.eqb (env "HENRY_MATRIX_ACCESS_TOKEN") EmptyString)
        eqn:T; simpl; [|discriminate].
      apply String.eqb_eq in P, T. tauto.
    + destruct (connect.loginResult srv) as [[uid token]|e]; simpl;
        [discriminate|].
      destruct (negb _); simpl; discriminate.
Qed.

Lemma loaded_config_is_complete_witness :
  config.ContextMessageCount
    {| config.MatrixHomeserver := "https://henhouse.im";
       config.MatrixUserID := "@henry:henhouse.im";
       config.MatrixAccessToken := EmptyString;
       config.MatrixPassword := "secret";
       config.SyncTokenFile := "sync_token.txt";
       config.ClaudeAPIKey := "sk-key";
       config.ContextMessageCount := -3;
       config.AllowedDomain := "henhouse.im";
       config.OwnerID := EmptyString |} = -3
  /\ Int64.inRange (-3).
Proof.
  split; [reflexivity|].
  apply (loaded_config_is_complete
           (config.envOf [("HENRY_MATRIX_HOMESERVER", "https://henhouse.im");
                          ("HENRY_MATRIX_USER_ID", "@henry:henhouse.im");
                          ("HENRY_MATRIX_PASSWORD", "secret");
                          ("HENRY_CLAUDE_API_KEY", "sk-key");
                          ("HENRY_CONTEXT_MESSAGE_COUNT", "-3")])
           {| config.MatrixHomeserver := "https://henhouse.im";
              config.MatrixUserID := "@henry:henhouse.im";
              config.MatrixAccessToken := EmptyString;
              config.MatrixPassword := "secret";
              config.SyncTokenFile := "sync_token.txt";
              config.ClaudeAPIKey := "sk-key";
              config.ContextMessageCount := -3;
              config.AllowedDomain := "henhouse.im";
              config.OwnerID := EmptyString |}).
  reflexivity.
Defined.

(** the count is not checked beyond being a number; errors come in the
    order of the checks *)
Example load_config_runs :
  config.Atoi "12" = Some 12 /\ config.Atoi "+007" = Some 7
  /\ config.Atoi "-" = None /\ config.Atoi "1_000" = None
  /\ config.Atoi "9223372036854775808" = None
  /\ config.Atoi "-9223372036854775808" = Some (-9223372036854775808)
  /\ config.LoadConfig (config.envOf []) = config.Refused config.NoHomeserver
  /\ config.LoadConfig
       (config.envOf [("HENRY_MATRIX_HOMESERVER", "https://henhouse.im");
                      ("HENRY_MATRIX_USER_ID", "@henry:henhouse.im");
                      ("HENRY_CLAUDE_API_KEY", "sk-key");
                      ("HENRY_CONTEXT_MESSAGE_COUNT", "ten")])
     = config.Refused config.NoCredentials.
Proof. repeat split; reflexivity. Qed.

Section LatestFacts.
Import domain claude.

Lemma latestFrom_spec start messages :
  start <= latestFrom start messages
  /\ Forall (fun m => cmTimestamp m <= latestFrom start messages) messages
  /\ (latestFrom start messages = start
      \/ In (latestFrom start messages) (map cmTimestamp messages)).
Proof.
  revert start. induction messages as [|m rest IH]; intros start; simpl.
  - split; [lia|]. split; [constructor|now left].
  - destruct (IH (if start <? cmTimestamp m then cmTimestamp m else start))
      as (A & B & C).
    destruct (start <? cmTimestamp m) eqn:L;
      [apply Z.ltb_lt in L|apply Z.ltb_ge in L].
    + split; [lia|]. split; [constructor; [lia|exact B]|].
      right. destruct C as [C|C]; [left; now rewrite C|now right].
    + split; [lia|]. split; [constructor; [lia|exact B]|].
      destruct C as [C|C]; [now left|right; now right].
Qed.

End LatestFacts.

(** X25: the reference time that [GenerateResponse] takes from the messages
    is never negative, is at least every timestamp of the messages, and is
    zero or the timestamp of one of them; the date given to the model comes
    from the messages exactly when one of them has a timestamp greater than
    zero, and from the system clock otherwise. *)
Theorem latest_timestamp_is_the_maximum
    (messages : list domain.ConversationMessage) :
  0 <= claude.latestTimestamp messages
  /\ Forall (fun m => domain.cmTimestamp m <= claude.latestTimestamp messages)
       messages
  /\ (claude.latestTimestamp messages = 0
      \/ In (claude.latestTimestamp messages)
            (map domain.cmTimestamp messages))
  /\ (claude.dateFromMessages messages = true
      <-> Exists (fun m => 0 < domain.cmTimestamp m) messages).
Proof.
  unfold claude.dateFromMessages, claude.latestTimestamp.
  destruct (latestFrom_spec 0 messages) as (A & B & C).
  split; [exact A|]. split; [exact B|]. split; [exact C|].
  rewrite Z.ltb_lt. split.
  - intros Pos. destruct C as [C|C]; [lia|].
    apply in_map_iff in C. destruct C as (m & E & I).
    apply Exists_exists. exists m. split; [exact I|lia].
  - intros X. apply Exists_exists in X. destruct X as (m & I & Pos).
    rewrite Forall_forall in B. specialize (B m I). lia.
Qed.

(* ================================================================== *)
(** * From the homeserver's answer to the window *)

(** X26: the fetch and the reconciler together.  When the homeserver
    answers the history request with a non-empty chunk that is newest first
    with distinct timestamps, none of them later than the handler's clock,
    the window built from [GetRoomContext] is in chronological order and has
    at most one entry more than the configured count (than one, for a count
    below one). *)
Theorem window_from_homeserver_chronological
    (w : chat.World) (hs : history.Homeserver)
    (chunk : list history.HistoryEvent)
    (senderID roomID currentMessage : string) :
  chat.roomContext w
  = history.GetRoomContext (chat.GetBotUserID w) hs
      (chat.ContextMessageCount w) ->
  history.messages hs = chat.Ok chunk -> chunk <> [] ->
  StronglySorted Z.gt
    (map (fun evt => matrix.evTimestamp (history.base evt)) chunk) ->
  (forall evt, In evt chunk ->
               matrix.evTimestamp (history.base evt)
               <= chat.clockForContext w) ->
  let window :=
    fst (fst (chat.getConversationContext w senderID roomID currentMessage)) in
  StronglySorted Z.le (map domain.cmTimestamp window)
  /\ Z.of_nat (List.length window)
     <= Z.max 1 (chat.ContextMessageCount w) + 1.
Proof.
  intros Service Fetch NonEmpty Newest Clock window.
  destruct (keepUpTo_prefix (chat.GetBotUserID w) (chat.ContextMessageCount w)
              [] chunk) as (n & E & F & B & _); [simpl; lia|reflexivity|].
  simpl in E.
  assert (Run : chat.roomContext w
                = chat.Ok (history.toMessages (chat.GetBotUserID w)
                             (firstn n chunk))).
  { rewrite Service. unfold history.GetRoomContext,
      history.ClientGetRoomContext. rewrite Fetch.
    destruct chunk; [contradiction|]. now rewrite E. }
  set (msgs := history.toMessages (chat.GetBotUserID w) (firstn n chunk)) in *.
  assert (Sorted : StronglySorted Z.gt (map domain.Timestamp msgs)).
  { apply toMessages_sorted. rewrite <- firstn_map. now apply firstn_sorted. }
  assert (Before : forall m, In m msgs ->
                             domain.Timestamp m <= chat.clockForContext w).
  { intros m I. apply toMessages_wellformed in I.
    destruct I as (_ & _ & evt & I & _ & T & _). rewrite T. apply Clock.
    rewrite <- (firstn_skipn n chunk). apply in_or_app. now left. }
  assert (Count : Z.of_nat (List.length msgs)
                  <= Z.max 1 (chat.ContextMessageCount w)).
  { subst msgs. rewrite <- E, F. exact B. }
  clearbody msgs. clear E F B.
  pose proof (history_sorted (chat.GetBotUserID w) msgs Sorted) as HS.
  pose proof (reconcile_length (chat.GetBotUserID w)
                (rev (chat.recentMessagesOf (chat.Ok msgs)))) as L1.
  pose proof (recentMessagesOf_length (chat.Ok msgs)) as L2.
  rewrite length_rev in L1. cbv beta iota in L2.
  subst window. rewrite window_shape, Run.
  destruct (existsb _ _).
  - split; [now apply sorted_lt_le|lia].
  - split.
    + rewrite map_app. simpl. apply sorted_snoc; [now apply sorted_lt_le|].
      rewrite Forall_forall. intros t K.
      apply history_timestamps_from in K. rewrite in_map_iff in K.
      destruct K as (m & <- & I). now apply Before.
    + rewrite length_app. cbn [List.length]. lia.
Qed.

Lemma window_from_homeserver_chronological_witness :
  StronglySorted Z.le
    (map domain.cmTimestamp
       (fst (fst (chat.getConversationContext
                    (samples.world
                       (history.GetRoomContext "@henry:henhouse.im"
                          fixtures.answered 10)
                       9000)
                    samples.alice samples.room "thanks"))))
  /\ Z.of_nat
       (List.length
          (fst (fst (chat.getConversationContext
                       (samples.world
                          (history.GetRoomContext "@henry:henhouse.im"
                             fixtures.answered 10)
                          9000)
                       samples.alice samples.room "thanks"))))
     <= Z.max 1 10 + 1.
Proof.
  apply (window_from_homeserver_chronological
           (samples.world
              (history.GetRoomContext "@henry:henhouse.im"
                 fixtures.answered 10)
              9000)
           fixtures.answered
           [fixtures.textEvent "$3" samples.alice "bye" 3000;
            fixtures.textEvent "$2" samples.alice EmptyString 2500;
            fixtures.textEvent "$1" "@henry:henhouse.im" "hello" 2000;
            fixtures.textEvent "$0" samples.alice "hi" 1000]
           samples.alice samples.room "thanks").
  - reflexivity.
  - reflexivity.
  - discriminate.
  - simpl. repeat constructor; lia.
  - simpl. intros evt [<-|[<-|[<-|[<-|[]]]]]; simpl; lia.
Defined.
